(** * Arduino stopwatch / countdown timer: a model of [arduino.cpp]

    The sketch is a single polling loop over global variables.  The model
    keeps one record with a field per global (same names), plus the two
    peripherals the sketch drives: the level latched on the LED pin and the
    sequence of calls made to the LCD and the LED.  Every function of the
    sketch, and every commented block of [loop], is a function on that
    record. *)

From Stdlib Require Import ZArith List Bool String Ascii Lia DecimalString.
Import ListNotations.
Open Scope string_scope.
Open Scope list_scope.
Open Scope Z_scope.

(** ** Machine integers

    [unsigned long] is 32 bits wide and its arithmetic wraps.  [int] is the
    16-bit signed integer of the AVR boards (Uno, Nano, Mega) such a sketch is
    built for.  Overflow of a signed [int] is undefined in C++; the compiled
    code adds on 16-bit registers, which is the two's-complement wrap-around
    written here. *)

Definition u32 (z : Z) : Z := z mod 2 ^ 32.

Definition INT_MAX : Z := 32767.
Definition INT_MIN : Z := -32768.
Definition wrap_int (z : Z) : Z := (z + 32768) mod 65536 - 32768.

Definition HIGH : bool := true.
Definition LOW : bool := false.

(** ** Constants *)

Definition BUTTON_A_PIN : Z := 7.
Definition BUTTON_B_PIN : Z := 6.
Definition LED_PIN : Z := 8.

Definition DEBOUNCE_MS : Z := 50.
Definition LONGPRESS_MS : Z := 800.
Definition HOLD_REPEAT_MS : Z := 350.
Definition TICK_MS : Z := 1000.
Definition LED_BLINK_MS : Z := 500.

Definition COUNT_STEP : Z := 10.
Definition COUNT_MIN : Z := 10.
Definition COUNT_MAX : Z := 300.

Inductive TimerMode : Type := IDLE | STOPWATCH | COUNTDOWN.

(** The integer value of an enumerator; [lastShownMode] also holds 255,
    which is none of them. *)
Definition mode_code (m : TimerMode) : Z :=
  match m with IDLE => 0 | STOPWATCH => 1 | COUNTDOWN => 2 end.

Definition mode_eqb (a b : TimerMode) : bool := mode_code a =? mode_code b.

(** ** Peripheral calls *)

Inductive PinDir : Type := INPUT_PULLUP | OUTPUT.

Inductive Output : Type :=
| LcdInit
| LcdBacklight
| LcdSetCursor (col row : Z)
| LcdPrint (txt : string)
| PinMode (pin : Z) (dir : PinDir)
| DigitalWrite (pin : Z) (level : bool).

(** ** Globals and peripherals

    [trace] lists the peripheral calls made so far, latest first. *)

Record State : Type := mkState {
  currentMode : TimerMode;
  stopwatchSeconds : Z;
  isStopwatchRunning : bool;
  initialCountdownSetting : Z;
  countdownSeconds : Z;
  isCountdownRunning : bool;
  countdownFinished : bool;
  lastRawA : bool;
  lastRawB : bool;
  lastDebounceTimeA : Z;
  lastDebounceTimeB : Z;
  stableA : bool;
  stableB : bool;
  pressStartA : Z;
  pressStartB : Z;
  longAengaged : bool;
  longBengaged : bool;
  lastHoldRepeatB : Z;
  lastTick : Z;
  lastLedToggle : Z;
  ledState : bool;
  lastShownMode : Z;
  lastLine0 : string;
  lastLine1 : string;
  ledPin : bool;
  trace : list Output
}.

Definition set_currentMode (v : TimerMode) (s : State) : State :=
  mkState v (stopwatchSeconds s) (isStopwatchRunning s)
    (initialCountdownSetting s) (countdownSeconds s) (isCountdownRunning s)
    (countdownFinished s) (lastRawA s) (lastRawB s) (lastDebounceTimeA s)
    (lastDebounceTimeB s) (stableA s) (stableB s) (pressStartA s)
    (pressStartB s) (longAengaged s) (longBengaged s) (lastHoldRepeatB s)
    (lastTick s) (lastLedToggle s) (ledState s) (lastShownMode s)
    (lastLine0 s) (lastLine1 s) (ledPin s) (trace s).

Definition set_stopwatchSeconds (v : Z) (s : State) : State :=
  mkState (currentMode s) v (isStopwatchRunning s) (initialCountdownSetting s)
    (countdownSeconds s) (isCountdownRunning s) (countdownFinished s)
    (lastRawA s) (lastRawB s) (lastDebounceTimeA s) (lastDebounceTimeB s)
    (stableA s) (stableB s) (pressStartA s) (pressStartB s) (longAengaged s)
    (longBengaged s) (lastHoldRepeatB s) (lastTick s) (lastLedToggle s)
    (ledState s) (lastShownMode s) (lastLine0 s) (lastLine1 s) (ledPin s)
    (trace s).

Definition set_isStopwatchRunning (v : bool) (s : State) : State :=
  mkState (currentMode s) (stopwatchSeconds s) v (initialCountdownSetting s)
    (countdownSeconds s) (isCountdownRunning s) (countdownFinished s)
    (lastRawA s) (lastRawB s) (lastDebounceTimeA s) (lastDebounceTimeB s)
    (stableA s) (stableB s) (pressStartA s) (pressStartB s) (longAengaged s)
    (longBengaged s) (lastHoldRepeatB s) (lastTick s) (lastLedToggle s)
    (ledState s) (lastShownMode s) (lastLine0 s) (lastLine1 s) (ledPin s)
    (trace s).

Definition set_initialCountdownSetting (v : Z) (s : State) : State :=
  mkState (currentMode s) (stopwatchSeconds s) (isStopwatchRunning s) v
    (countdownSeconds s) (isCountdownRunning s) (countdownFinished s)
    (lastRawA s) (lastRawB s) (lastDebounceTimeA s) (lastDebounceTimeB s)
    (stableA s) (stableB s) (pressStartA s) (pressStartB s) (longAengaged s)
    (longBengaged s) (lastHoldRepeatB s) (lastTick s) (lastLedToggle s)
    (ledState s) (lastShownMode s) (lastLine0 s) (lastLine1 s) (ledPin s)
    (trace s).

Definition set_countdownSeconds (v : Z) (s : State) : State :=
  mkState (currentMode s) (stopwatchSeconds s) (isStopwatchRunning s)
    (initialCountdownSetting s) v (isCountdownRunning s) (countdownFinished s)
    (lastRawA s) (lastRawB s) (lastDebounceTimeA s) (lastDebounceTimeB s)
    (stableA s) (stableB s) (pressStartA s) (pressStartB s) (longAengaged s)
    (longBengaged s) (lastHoldRepeatB s) (lastTick s) (lastLedToggle s)
    (ledState s) (lastShownMode s) (lastLine0 s) (lastLine1 s) (ledPin s)
    (trace s).

Definition set_isCountdownRunning (v : bool) (s : State) : State :=
  mkState (currentMode s) (stopwatchSeconds s) (isStopwatchRunning s)
    (initialCountdownSetting s) (countdownSeconds s) v (countdownFinished s)
    (lastRawA s) (lastRawB s) (lastDebounceTimeA s) (lastDebounceTimeB s)
    (stableA s) (stableB s) (pressStartA s) (pressStartB s) (longAengaged s)
    (longBengaged s) (lastHoldRepeatB s) (lastTick s) (lastLedToggle s)
    (ledState s) (lastShownMode s) (lastLine0 s) (lastLine1 s) (ledPin s)
    (trace s).

Definition set_countdownFinished (v : bool) (s : State) : State :=
  mkState (currentMode s) (stopwatchSeconds s) (isStopwatchRunning s)
    (initialCountdownSetting s) (countdownSeconds s) (isCountdownRunning s) v
    (lastRawA s) (lastRawB s) (lastDebounceTimeA s) (lastDebounceTimeB s)
    (stableA s) (stableB s) (pressStartA s) (pressStartB s) (longAengaged s)
    (longBengaged s) (lastHoldRepeatB s) (lastTick s) (lastLedToggle s)
    (ledState s) (lastShownMode s) (lastLine0 s) (lastLine1 s) (ledPin s)
    (trace s).

Definition set_lastRawA (v : bool) (s : State) : State :=
  mkState (currentMode s) (stopwatchSeconds s) (isStopwatchRunning s)
    (initialCountdownSetting s) (countdownSeconds s) (isCountdownRunning s)
    (countdownFinished s) v (lastRawB s) (lastDebounceTimeA s)
    (lastDebounceTimeB s) (stableA s) (stableB s) (pressStartA s)
    (pressStartB s) (longAengaged s) (longBengaged s) (lastHoldRepeatB s)
    (lastTick s) (lastLedToggle s) (ledState s) (lastShownMode s)
    (lastLine0 s) (lastLine1 s) (ledPin s) (trace s).

Definition set_lastRawB (v : bool) (s : State) : State :=
  mkState (currentMode s) (stopwatchSeconds s) (isStopwatchRunning s)
    (initialCountdownSetting s) (countdownSeconds s) (isCountdownRunning s)
    (countdownFinished s) (lastRawA s) v (lastDebounceTimeA s)
    (lastDebounceTimeB s) (stableA s) (stableB s) (pressStartA s)
    (pressStartB s) (longAengaged s) (longBengaged s) (lastHoldRepeatB s)
    (lastTick s) (lastLedToggle s) (ledState s) (lastShownMode s)
    (lastLine0 s) (lastLine1 s) (ledPin s) (trace s).

Definition set_lastDebounceTimeA (v : Z) (s : State) : State :=
  mkState (currentMode s) (stopwatchSeconds s) (isStopwatchRunning s)
    (initialCountdownSetting s) (countdownSeconds s) (isCountdownRunning s)
    (countdownFinished s) (lastRawA s) (lastRawB s) v (lastDebounceTimeB s)
    (stableA s) (stableB s) (pressStartA s) (pressStartB s) (longAengaged s)
    (longBengaged s) (lastHoldRepeatB s) (lastTick s) (lastLedToggle s)
    (ledState s) (lastShownMode s) (lastLine0 s) (lastLine1 s) (ledPin s)
    (trace s).

Definition set_lastDebounceTimeB (v : Z) (s : State) : State :=
  mkState (currentMode s) (stopwatchSeconds s) (isStopwatchRunning s)
    (initialCountdownSetting s) (countdownSeconds s) (isCountdownRunning s)
    (countdownFinished s) (lastRawA s) (lastRawB s) (lastDebounceTimeA s) v
    (stableA s) (stableB s) (pressStartA s) (pressStartB s) (longAengaged s)
    (longBengaged s) (lastHoldRepeatB s) (lastTick s) (lastLedToggle s)
    (ledState s) (lastShownMode s) (lastLine0 s) (lastLine1 s) (ledPin s)
    (trace s).

Definition set_stableA (v : bool) (s : State) : State :=
  mkState (currentMode s) (stopwatchSeconds s) (isStopwatchRunning s)
    (initialCountdownSetting s) (countdownSeconds s) (isCountdownRunning s)
    (countdownFinished s) (lastRawA s) (lastRawB s) (lastDebounceTimeA s)
    (lastDebounceTimeB s) v (stableB s) (pressStartA s) (pressStartB s)
    (longAengaged s) (longBengaged s) (lastHoldRepeatB s) (lastTick s)
    (lastLedToggle s) (ledState s) (lastShownMode s) (lastLine0 s)
    (lastLine1 s) (ledPin s) (trace s).

Definition set_stableB (v : bool) (s : State) : State :=
  mkState (currentMode s) (stopwatchSeconds s) (isStopwatchRunning s)
    (initialCountdownSetting s) (countdownSeconds s) (isCountdownRunning s)
    (countdownFinished s) (lastRawA s) (lastRawB s) (lastDebounceTimeA s)
    (lastDebounceTimeB s) (stableA s) v (pressStartA s) (pressStartB s)
    (longAengaged s) (longBengaged s) (lastHoldRepeatB s) (lastTick s)
    (lastLedToggle s) (ledState s) (lastShownMode s) (lastLine0 s)
    (lastLine1 s) (ledPin s) (trace s).

Definition set_pressStartA (v : Z) (s : State) : State :=
  mkState (currentMode s) (stopwatchSeconds s) (isStopwatchRunning s)
    (initialCountdownSetting s) (countdownSeconds s) (isCountdownRunning s)
    (countdownFinished s) (lastRawA s) (lastRawB s) (lastDebounceTimeA s)
    (lastDebounceTimeB s) (stableA s) (stableB s) v (pressStartB s)
    (longAengaged s) (longBengaged s) (lastHoldRepeatB s) (lastTick s)
    (lastLedToggle s) (ledState s) (lastShownMode s) (lastLine0 s)
    (lastLine1 s) (ledPin s) (trace s).

Definition set_pressStartB (v : Z) (s : State) : State :=
  mkState (currentMode s) (stopwatchSeconds s) (isStopwatchRunning s)
    (initialCountdownSetting s) (countdownSeconds s) (isCountdownRunning s)
    (countdownFinished s) (lastRawA s) (lastRawB s) (lastDebounceTimeA s)
    (lastDebounceTimeB s) (stableA s) (stableB s) (pressStartA s) v
    (longAengaged s) (longBengaged s) (lastHoldRepeatB s) (lastTick s)
    (lastLedToggle s) (ledState s) (lastShownMode s) (lastLine0 s)
    (lastLine1 s) (ledPin s) (trace s).

Definition set_longAengaged (v : bool) (s : State) : State :=
  mkState (currentMode s) (stopwatchSeconds s) (isStopwatchRunning s)
    (initialCountdownSetting s) (countdownSeconds s) (isCountdownRunning s)
    (countdownFinished s) (lastRawA s) (lastRawB s) (lastDebounceTimeA s)
    (lastDebounceTimeB s) (stableA s) (stableB s) (pressStartA s)
    (pressStartB s) v (longBengaged s) (lastHoldRepeatB s) (lastTick s)
    (lastLedToggle s) (ledState s) (lastShownMode s) (lastLine0 s)
    (lastLine1 s) (ledPin s) (trace s).

Definition set_longBengaged (v : bool) (s : State) : State :=
  mkState (currentMode s) (stopwatchSeconds s) (isStopwatchRunning s)
    (initialCountdownSetting s) (countdownSeconds s) (isCountdownRunning s)
    (countdownFinished s) (lastRawA s) (lastRawB s) (lastDebounceTimeA s)
    (lastDebounceTimeB s) (stableA s) (stableB s) (pressStartA s)
    (pressStartB s) (longAengaged s) v (lastHoldRepeatB s) (lastTick s)
    (lastLedToggle s) (ledState s) (lastShownMode s) (lastLine0 s)
    (lastLine1 s) (ledPin s) (trace s).

Definition set_lastHoldRepeatB (v : Z) (s : State) : State :=
  mkState (currentMode s) (stopwatchSeconds s) (isStopwatchRunning s)
    (initialCountdownSetting s) (countdownSeconds s) (isCountdownRunning s)
    (countdownFinished s) (lastRawA s) (lastRawB s) (lastDebounceTimeA s)
    (lastDebounceTimeB s) (stableA s) (stableB s) (pressStartA s)
    (pressStartB s) (longAengaged s) (longBengaged s) v (lastTick s)
    (lastLedToggle s) (ledState s) (lastShownMode s) (lastLine0 s)
    (lastLine1 s) (ledPin s) (trace s).

Definition set_lastTick (v : Z) (s : State) : State :=
  mkState (currentMode s) (stopwatchSeconds s) (isStopwatchRunning s)
    (initialCountdownSetting s) (countdownSeconds s) (isCountdownRunning s)
    (countdownFinished s) (lastRawA s) (lastRawB s) (lastDebounceTimeA s)
    (lastDebounceTimeB s) (stableA s) (stableB s) (pressStartA s)
    (pressStartB s) (longAengaged s) (longBengaged s) (lastHoldRepeatB s) v
    (lastLedToggle s) (ledState s) (lastShownMode s) (lastLine0 s)
    (lastLine1 s) (ledPin s) (trace s).

Definition set_lastLedToggle (v : Z) (s : State) : State :=
  mkState (currentMode s) (stopwatchSeconds s) (isStopwatchRunning s)
    (initialCountdownSetting s) (countdownSeconds s) (isCountdownRunning s)
    (countdownFinished s) (lastRawA s) (lastRawB s) (lastDebounceTimeA s)
    (lastDebounceTimeB s) (stableA s) (stableB s) (pressStartA s)
    (pressStartB s) (longAengaged s) (longBengaged s) (lastHoldRepeatB s)
    (lastTick s) v (ledState s) (lastShownMode s) (lastLine0 s) (lastLine1 s)
    (ledPin s) (trace s).

Definition set_ledState (v : bool) (s : State) : State :=
  mkState (currentMode s) (stopwatchSeconds s) (isStopwatchRunning s)
    (initialCountdownSetting s) (countdownSeconds s) (isCountdownRunning s)
    (countdownFinished s) (lastRawA s) (lastRawB s) (lastDebounceTimeA s)
    (lastDebounceTimeB s) (stableA s) (stableB s) (pressStartA s)
    (pressStartB s) (longAengaged s) (longBengaged s) (lastHoldRepeatB s)
    (lastTick s) (lastLedToggle s) v (lastShownMode s) (lastLine0 s)
    (lastLine1 s) (ledPin s) (trace s).

Definition set_lastShownMode (v : Z) (s : State) : State :=
  mkState (currentMode s) (stopwatchSeconds s) (isStopwatchRunning s)
    (initialCountdownSetting s) (countdownSeconds s) (isCountdownRunning s)
    (countdownFinished s) (lastRawA s) (lastRawB s) (lastDebounceTimeA s)
    (lastDebounceTimeB s) (stableA s) (stableB s) (pressStartA s)
    (pressStartB s) (longAengaged s) (longBengaged s) (lastHoldRepeatB s)
    (lastTick s) (lastLedToggle s) (ledState s) v (lastLine0 s) (lastLine1 s)
    (ledPin s) (trace s).

Definition set_lastLine0 (v : string) (s : State) : State :=
  mkState (currentMode s) (stopwatchSeconds s) (isStopwatchRunning s)
    (initialCountdownSetting s) (countdownSeconds s) (isCountdownRunning s)
    (countdownFinished s) (lastRawA s) (lastRawB s) (lastDebounceTimeA s)
    (lastDebounceTimeB s) (stableA s) (stableB s) (pressStartA s)
    (pressStartB s) (longAengaged s) (longBengaged s) (lastHoldRepeatB s)
    (lastTick s) (lastLedToggle s) (ledState s) (lastShownMode s) v
    (lastLine1 s) (ledPin s) (trace s).

Definition set_lastLine1 (v : string) (s : State) : State :=
  mkState (currentMode s) (stopwatchSeconds s) (isStopwatchRunning s)
    (initialCountdownSetting s) (countdownSeconds s) (isCountdownRunning s)
    (countdownFinished s) (lastRawA s) (lastRawB s) (lastDebounceTimeA s)
    (lastDebounceTimeB s) (stableA s) (stableB s) (pressStartA s)
    (pressStartB s) (longAengaged s) (longBengaged s) (lastHoldRepeatB s)
    (lastTick s) (lastLedToggle s) (ledState s) (lastShownMode s)
    (lastLine0 s) v (ledPin s) (trace s).

Definition set_ledPin (v : bool) (s : State) : State :=
  mkState (currentMode s) (stopwatchSeconds s) (isStopwatchRunning s)
    (initialCountdownSetting s) (countdownSeconds s) (isCountdownRunning s)
    (countdownFinished s) (lastRawA s) (lastRawB s) (lastDebounceTimeA s)
    (lastDebounceTimeB s) (stableA s) (stableB s) (pressStartA s)
    (pressStartB s) (longAengaged s) (longBengaged s) (lastHoldRepeatB s)
    (lastTick s) (lastLedToggle s) (ledState s) (lastShownMode s)
    (lastLine0 s) (lastLine1 s) v (trace s).

Definition set_trace (v : list Output) (s : State) : State :=
  mkState (currentMode s) (stopwatchSeconds s) (isStopwatchRunning s)
    (initialCountdownSetting s) (countdownSeconds s) (isCountdownRunning s)
    (countdownFinished s) (lastRawA s) (lastRawB s) (lastDebounceTimeA s)
    (lastDebounceTimeB s) (stableA s) (stableB s) (pressStartA s)
    (pressStartB s) (longAengaged s) (longBengaged s) (lastHoldRepeatB s)
    (lastTick s) (lastLedToggle s) (ledState s) (lastShownMode s)
    (lastLine0 s) (lastLine1 s) (ledPin s) v.


Definition emit (o : Output) (s : State) : State :=
  set_trace (o :: trace s) s.

(** [digitalWrite(LED_PIN, level)]: the pin takes the level. *)
Definition digitalWrite_LED (level : bool) (s : State) : State :=
  emit (DigitalWrite LED_PIN level) (set_ledPin level s).

(** ** Text formatting *)

(** [%d] *)
Definition fmt_d (z : Z) : string := NilZero.string_of_int (Z.to_int z).

(** [%02d]: zero-padded to a minimum width of two. *)
Definition fmt_02d (z : Z) : string :=
  let t := fmt_d z in
  if (Z.of_nat (String.length t) <? 2) then ("0" ++ t)%string else t.

(** [snprintf(dst, size, ...)] keeps at most [size - 1] characters of the
    formatted text. *)
Definition snprintf (size : nat) (formatted : string) : string :=
  substring 0 (size - 1) formatted.

(** [strncpy(cache, txt, 16); cache[16] = '\0';] *)
Definition strncpy16 (txt : string) : string := substring 0 16 txt.

(** ** Helpers *)

Definition formatTime (totalSeconds : Z) : string :=
  let m := Z.quot totalSeconds 60 in
  let s := Z.rem totalSeconds 60 in
  (fmt_02d m ++ ":" ++ fmt_02d s)%string.

Definition safePrintLine (row : Z) (txt : string) (s : State) : State :=
  let cache := if row =? 0 then lastLine0 s else lastLine1 s in
  if negb (String.eqb cache txt) then
    let s := emit (LcdSetCursor 0 row) s in
    let s := emit (LcdPrint "                ") s in
    let s := emit (LcdSetCursor 0 row) s in
    let s := emit (LcdPrint txt) s in
    if row =? 0 then set_lastLine0 (strncpy16 txt) s
    else set_lastLine1 (strncpy16 txt) s
  else s.

Definition updateLCD (s : State) : State :=
  let s :=
    if negb (mode_code (currentMode s) =? lastShownMode s) then
      let s := set_lastLine0 "" s in
      let s := set_lastLine1 "" s in
      set_lastShownMode (mode_code (currentMode s)) s
    else s in
  match currentMode s with
  | STOPWATCH =>
      let s := safePrintLine 0 "   STOPWATCH" s in
      let buf := formatTime (stopwatchSeconds s) in
      let line := snprintf 17 ("     " ++ buf)%string in
      safePrintLine 1 line s
  | COUNTDOWN =>
      let s := safePrintLine 0 "   COUNTDOWN" s in
      if countdownSeconds s >? 0 then
        let buf := formatTime (countdownSeconds s) in
        let line := snprintf 17 ("     " ++ buf)%string in
        safePrintLine 1 line s
      else
        let s := safePrintLine 1 "   TIME UP!     " s in
        digitalWrite_LED HIGH s
  | IDLE =>
      let s := safePrintLine 0 "A : Stopwatch" s in
      let line :=
        snprintf 17
          ("B : CD For : " ++ fmt_d (initialCountdownSetting s) ++ "s")%string in
      safePrintLine 1 line s
  end.

(** ** Power-on values of the globals, and [setup] *)

Definition initial : State :=
  {| currentMode := IDLE;
     stopwatchSeconds := 0; isStopwatchRunning := false;
     initialCountdownSetting := 10; countdownSeconds := 0;
     isCountdownRunning := false; countdownFinished := false;
     lastRawA := HIGH; lastRawB := HIGH;
     lastDebounceTimeA := 0; lastDebounceTimeB := 0;
     stableA := HIGH; stableB := HIGH;
     pressStartA := 0; pressStartB := 0;
     longAengaged := false; longBengaged := false;
     lastHoldRepeatB := 0;
     lastTick := 0; lastLedToggle := 0; ledState := LOW;
     lastShownMode := mode_code IDLE; lastLine0 := ""; lastLine1 := "";
     ledPin := LOW; trace := [] |}.

Definition setup (s : State) : State :=
  let s := emit LcdInit s in
  let s := emit LcdBacklight s in
  let s := emit (PinMode BUTTON_A_PIN INPUT_PULLUP) s in
  let s := emit (PinMode BUTTON_B_PIN INPUT_PULLUP) s in
  let s := emit (PinMode LED_PIN OUTPUT) s in
  let s := set_lastShownMode 255 s in
  updateLCD s.

Definition booted : State := setup initial.

(** ** The blocks of [loop] *)

(** "short click A" *)
Definition shortClickA (s : State) : State :=
  let s :=
    if negb (mode_eqb (currentMode s) STOPWATCH) then
      let s := set_currentMode STOPWATCH s in
      let s := set_isStopwatchRunning true s in
      let s := set_isCountdownRunning false s in
      set_countdownFinished false s
    else set_isStopwatchRunning (negb (isStopwatchRunning s)) s in
  updateLCD s.

(** "short click B" *)
Definition shortClickB (s : State) : State :=
  let s := set_currentMode COUNTDOWN s in
  let s := set_isStopwatchRunning false s in
  let s := set_countdownFinished false s in
  let s :=
    if isCountdownRunning s then set_isCountdownRunning false s
    else if countdownSeconds s <=? 0 then
      let s := set_countdownSeconds (initialCountdownSetting s) s in
      set_isCountdownRunning true s
    else set_isCountdownRunning true s in
  updateLCD s.

(** "Debounce A" *)
Definition debounceA (now : Z) (rawA : bool) (s : State) : State :=
  let s :=
    if negb (Bool.eqb rawA (lastRawA s)) then set_lastDebounceTimeA now s
    else s in
  let s :=
    if (u32 (now - lastDebounceTimeA s) >? DEBOUNCE_MS)
       && negb (Bool.eqb (stableA s) rawA) then
      let s := set_stableA rawA s in
      if Bool.eqb (stableA s) LOW then
        let s := set_pressStartA now s in
        set_longAengaged false s
      else
        let held := u32 (now - pressStartA s) in
        if negb (longAengaged s) && (held <? LONGPRESS_MS) then shortClickA s
        else s
    else s in
  set_lastRawA rawA s.

(** "Debounce B" *)
Definition debounceB (now : Z) (rawB : bool) (s : State) : State :=
  let s :=
    if negb (Bool.eqb rawB (lastRawB s)) then set_lastDebounceTimeB now s
    else s in
  let s :=
    if (u32 (now - lastDebounceTimeB s) >? DEBOUNCE_MS)
       && negb (Bool.eqb (stableB s) rawB) then
      let s := set_stableB rawB s in
      if Bool.eqb (stableB s) LOW then
        let s := set_pressStartB now s in
        let s := set_longBengaged false s in
        set_lastHoldRepeatB now s
      else
        let held := u32 (now - pressStartB s) in
        if negb (longBengaged s) && (held <? LONGPRESS_MS) then shortClickB s
        else s
    else s in
  set_lastRawB rawB s.

(** "Hold A -> Reset everything": the body of the [if]. *)
Definition resetEverything (s : State) : State :=
  let s := set_longAengaged true s in
  let s := set_stopwatchSeconds 0 s in
  let s := set_countdownSeconds 0 s in
  let s := set_isStopwatchRunning false s in
  let s := set_isCountdownRunning false s in
  let s := set_countdownFinished false s in
  let s := set_currentMode IDLE s in
  let s := digitalWrite_LED LOW s in
  updateLCD s.

Definition holdA (now : Z) (s : State) : State :=
  if Bool.eqb (stableA s) LOW
     && (u32 (now - pressStartA s) >=? LONGPRESS_MS)
     && negb (longAengaged s)
  then resetEverything s
  else s.

(** "Hold B -> Increase countdown setting": the statements of the inner
    [if] up to the repaint. *)
Definition increaseCountdownSetting (s : State) : State :=
  let s :=
    set_initialCountdownSetting
      (wrap_int (initialCountdownSetting s + COUNT_STEP)) s in
  let s :=
    if initialCountdownSetting s >? COUNT_MAX
    then set_initialCountdownSetting COUNT_MIN s else s in
  let s := set_currentMode IDLE s in
  updateLCD s.

Definition holdB (now : Z) (s : State) : State :=
  if Bool.eqb (stableB s) LOW && (u32 (now - pressStartB s) >=? LONGPRESS_MS)
  then
    let s :=
      if u32 (now - lastHoldRepeatB s) >=? HOLD_REPEAT_MS then
        let s := increaseCountdownSetting s in
        set_lastHoldRepeatB now s
      else s in
    set_longBengaged true s
  else s.

(** "Tick 1-second": what one tick does to the two timers. *)
Definition tickSecond (s : State) : State :=
  let s :=
    if isStopwatchRunning s then
      let s := set_stopwatchSeconds (wrap_int (stopwatchSeconds s + 1)) s in
      if mode_eqb (currentMode s) STOPWATCH then updateLCD s else s
    else s in
  if isCountdownRunning s then
    if countdownSeconds s >? 0 then
      let s := set_countdownSeconds (wrap_int (countdownSeconds s - 1)) s in
      let s := if mode_eqb (currentMode s) COUNTDOWN then updateLCD s else s in
      if countdownSeconds s =? 0 then
        let s := set_isCountdownRunning false s in
        let s := set_countdownFinished true s in
        updateLCD s
      else s
    else s
  else s.

Definition tick (now : Z) (s : State) : State :=
  if u32 (now - lastTick s) >=? TICK_MS then
    let s := set_lastTick now s in
    tickSecond s
  else s.

(** "LED behavior" *)
Definition toggleLed (now : Z) (s : State) : State :=
  let s := set_lastLedToggle now s in
  let s := set_ledState (negb (ledState s)) s in
  digitalWrite_LED (ledState s) s.

Definition ledBehavior (now : Z) (s : State) : State :=
  if isStopwatchRunning s || isCountdownRunning s then
    if u32 (now - lastLedToggle s) >=? LED_BLINK_MS then toggleLed now s else s
  else if countdownFinished s then
    if u32 (now - lastLedToggle s) >=? 700 then toggleLed now s else s
  else
    let s := digitalWrite_LED LOW s in
    set_ledState LOW s.

(** One pass of [loop]: [millis] is what the clock returns, [rawA] and
    [rawB] what the two button pins read. *)
Definition loop (millis : Z) (rawA rawB : bool) (s : State) : State :=
  let now := u32 millis in
  let s := debounceA now rawA s in
  let s := debounceB now rawB s in
  let s := holdA now s in
  let s := holdB now s in
  let s := tick now s in
  let s := ledBehavior now s in
  updateLCD s.

(** ** Runs of the sketch *)

(** What one pass of [loop] reads: the clock and the two button pins. *)
Record Input : Type := mkInput { millis : Z; pinA : bool; pinB : bool }.

Definition step (s : State) (i : Input) : State :=
  loop (millis i) (pinA i) (pinB i) s.

Definition run (inputs : list Input) (s : State) : State :=
  fold_left step inputs s.

(** All the states a run goes through, the starting one first. *)
Fixpoint states (inputs : list Input) (s : State) : list State :=
  match inputs with
  | [] => [s]
  | i :: rest => s :: states rest (step s i)
  end.

(** Pin levels as functions of time, read every 10 ms from time 0. *)
Definition sample (levelA levelB : Z -> bool) (k : nat) : Input :=
  let t := 10 * Z.of_nat k in mkInput t (levelA t) (levelB t).

Definition samples (levelA levelB : Z -> bool) (n : nat) : list Input :=
  map (sample levelA levelB) (seq 0 n).

Definition released (_ : Z) : bool := HIGH.

(** Low (pressed) during each of the half-open spans, high otherwise. *)
Definition pressed_during (spans : list (Z * Z)) (t : Z) : bool :=
  negb (existsb (fun '(a, b) => (a <=? t) && (t <? b)) spans).

(** ** Button events and the one-second tick, as the blocks they run *)

Inductive Event : Type :=
| ShortPressA
| LongPressStartA
| ShortPressB
| LongPressStartB
| HoldRepeatB
| Tick.

Definition apply_event (e : Event) (s : State) : State :=
  match e with
  | ShortPressA => shortClickA s
  | LongPressStartA => resetEverything s
  | ShortPressB => shortClickB s
  | LongPressStartB | HoldRepeatB => increaseCountdownSetting s
  | Tick => tickSecond s
  end.

Definition apply_events (es : list Event) (s : State) : State :=
  fold_left (fun s e => apply_event e s) es s.

Definition is_duration_change (e : Event) : bool :=
  match e with LongPressStartB | HoldRepeatB => true | _ => false end.

(** States the sketch can be in: after [setup], after any further pass of
    [loop] on any clock value and pin levels, and after any event. *)
Inductive reachable : State -> Prop :=
| reach_boot : reachable booted
| reach_loop s i : reachable s -> reachable (step s i)
| reach_event s e : reachable s -> reachable (apply_event e s).

(** One move of the sketch. *)
Inductive transition (s : State) : State -> Prop :=
| trans_loop i : transition s (step s i)
| trans_event e : transition s (apply_event e s).

(** The timer variables, without the button, clock, cache and peripheral
    bookkeeping. *)
Definition timers (s : State) : TimerMode * Z * bool * Z * Z * bool * bool :=
  (currentMode s, stopwatchSeconds s, isStopwatchRunning s,
   initialCountdownSetting s, countdownSeconds s, isCountdownRunning s,
   countdownFinished s).

(** The time-up branch of [updateLCD]. *)
Definition time_up (s : State) : bool :=
  mode_eqb (currentMode s) COUNTDOWN && negb (countdownSeconds s >? 0).

(** The pieces of [updateLCD]: the cache reset on a mode change, and the
    text it prints on each row. *)
Definition invalidate (s : State) : State :=
  if negb (mode_code (currentMode s) =? lastShownMode s) then
    let s := set_lastLine0 "" s in
    let s := set_lastLine1 "" s in
    set_lastShownMode (mode_code (currentMode s)) s
  else s.

Definition line0_text (s : State) : string :=
  match currentMode s with
  | STOPWATCH => "   STOPWATCH"
  | COUNTDOWN => "   COUNTDOWN"
  | IDLE => "A : Stopwatch"
  end.

Definition line1_text (s : State) : string :=
  match currentMode s with
  | STOPWATCH => snprintf 17 ("     " ++ formatTime (stopwatchSeconds s))%string
  | COUNTDOWN =>
      if countdownSeconds s >? 0
      then snprintf 17 ("     " ++ formatTime (countdownSeconds s))%string
      else "   TIME UP!     "
  | IDLE =>
      snprintf 17
        ("B : CD For : " ++ fmt_d (initialCountdownSetting s) ++ "s")%string
  end.

(** Reading the call trace (latest call first). *)
Definition is_lcd_call (o : Output) : bool :=
  match o with
  | LcdInit | LcdBacklight | LcdSetCursor _ _ | LcdPrint _ => true
  | PinMode _ _ | DigitalWrite _ _ => false
  end.

Definition lcd_calls (tr : list Output) : list Output := filter is_lcd_call tr.

(** A printed text fits the 16 columns of a row. *)
Definition fits (o : Output) : bool :=
  match o with
  | LcdPrint txt => (String.length txt <=? 16)%nat
  | _ => true
  end.

(** The text of the latest print that follows a cursor move to [row]. *)
Fixpoint last_written (row : Z) (tr : list Output) : option string :=
  match tr with
  | [] => None
  | LcdPrint txt :: rest =>
      match rest with
      | LcdSetCursor _ r :: _ =>
          if r =? row then Some txt else last_written row rest
      | _ => last_written row rest
      end
  | _ :: rest => last_written row rest
  end.

(** Every text printed so far fits a row, and the cache of each row holds
    the text last printed on it. *)
Definition shown (s : State) : Prop :=
  forallb fits (trace s) = true /\
  last_written 0 (trace s) = Some (lastLine0 s) /\
  last_written 1 (trace s) = Some (lastLine1 s).

(** The same state with every recorded timestamp moved by [k] on the
    32-bit clock. *)
Definition shift (k : Z) (s : State) : State :=
  mkState (currentMode s) (stopwatchSeconds s) (isStopwatchRunning s)
    (initialCountdownSetting s) (countdownSeconds s) (isCountdownRunning s)
    (countdownFinished s) (lastRawA s) (lastRawB s)
    (u32 (lastDebounceTimeA s + k)) (u32 (lastDebounceTimeB s + k))
    (stableA s) (stableB s)
    (u32 (pressStartA s + k)) (u32 (pressStartB s + k))
    (longAengaged s) (longBengaged s)
    (u32 (lastHoldRepeatB s + k))
    (u32 (lastTick s + k)) (u32 (lastLedToggle s + k))
    (ledState s) (lastShownMode s) (lastLine0 s) (lastLine1 s) (ledPin s)
    (trace s).

(** The same input with the clock reading moved by [k]. *)
Definition delay (k : Z) (i : Input) : Input :=
  mkInput (millis i + k) (pinA i) (pinB i).

(** What each event does, as one function on the timer variables alone. *)
Definition TimerVars : Type := (TimerMode * Z * bool * Z * Z * bool * bool)%type.

Definition timer_event (e : Event) (t : TimerVars) : TimerVars :=
  let '(m, sw, swr, d, cd, cdr, fin) := t in
  match e with
  | ShortPressA =>
      if mode_eqb m STOPWATCH then (m, sw, negb swr, d, cd, cdr, fin)
      else (STOPWATCH, sw, true, d, cd, false, false)
  | LongPressStartA => (IDLE, 0, false, d, 0, false, false)
  | ShortPressB =>
      if cdr then (COUNTDOWN, sw, false, d, cd, false, false)
      else if cd <=? 0 then (COUNTDOWN, sw, false, d, d, true, false)
      else (COUNTDOWN, sw, false, d, cd, true, false)
  | LongPressStartB | HoldRepeatB =>
      (IDLE, sw, swr,
       (if wrap_int (d + COUNT_STEP) >? COUNT_MAX then COUNT_MIN
        else wrap_int (d + COUNT_STEP)),
       cd, cdr, fin)
  | Tick =>
      let sw' := if swr then wrap_int (sw + 1) else sw in
      if cdr && (cd >? 0)
      then if wrap_int (cd - 1) =? 0
           then (m, sw', swr, d, wrap_int (cd - 1), false, true)
           else (m, sw', swr, d, wrap_int (cd - 1), true, fin)
      else (m, sw', swr, d, cd, cdr, fin)
  end.

Definition timer_events (es : list Event) (t : TimerVars) : TimerVars :=
  fold_left (fun t e => timer_event e t) es t.

(** At most one event of each kind per pass of [loop], in this order. *)
Definition pick (b : bool) (e : Event) : list Event := if b then [e] else [].

Definition pass_events (a b c d e : bool) : list Event :=
  pick a ShortPressA ++ pick b ShortPressB ++ pick c LongPressStartA
  ++ pick d HoldRepeatB ++ pick e Tick.

(** The invariant of the timer variables. *)
Definition timers_ok (t : TimerVars) : Prop :=
  let '(m, sw, swr, d, cd, cdr, fin) := t in
  COUNT_MIN <= d <= COUNT_MAX /\
  0 <= cd <= COUNT_MAX /\
  (swr = true -> m <> COUNTDOWN) /\
  (cdr = true -> m <> STOPWATCH) /\
  ~ (swr = true /\ cdr = true).

Definition tv_duration (t : TimerVars) : Z :=
  let '(_, _, _, d, _, _, _) := t in d.

Definition tv_remaining (t : TimerVars) : Z :=
  let '(_, _, _, _, cd, _, _) := t in cd.

(** A function of the state that does not read the display cache, the LED
    pin or the call trace is not affected by [updateLCD]. *)
Definition display_blind {X : Type} (f : State -> X) : Prop :=
  (forall v s, f (set_lastLine0 v s) = f s) /\
  (forall v s, f (set_lastLine1 v s) = f s) /\
  (forall v s, f (set_lastShownMode v s) = f s) /\
  (forall v s, f (set_ledPin v s) = f s) /\
  (forall v s, f (set_trace v s) = f s).

(** A state whose display cache agrees with what [updateLCD] would print. *)
Definition rendered (s : State) : Prop :=
  lastShownMode s = mode_code (currentMode s) /\
  lastLine0 s = line0_text s /\
  lastLine1 s = line1_text s.

(** ** Concrete runs *)

(** B held from 10 ms for 29 duration changes, clicked, then held again. *)
Definition c1_levelB : Z -> bool :=
  pressed_during [(10, 10700); (11000, 11200); (11500, 12400)].

(** No button touched: [n] passes 1000 ms apart, the first at time [t]. *)
Fixpoint every_second (t : Z) (n : nat) : list Input :=
  match n with
  | O => []
  | S n' => mkInput t HIGH HIGH :: every_second (t + 1000) n'
  end.

(** A button let go 800 ms after its press was accepted: the state before
    the pass at 870 ms that accepts the release. *)
Definition c4_level : Z -> bool := pressed_during [(10, 810)].
Definition c4_stateA : State := run (samples c4_level released 87) booted.
Definition c4_stateB : State := run (samples released c4_level 87) booted.

(** B clicked once. *)
Definition c3_levelB : Z -> bool := pressed_during [(10, 200)].

(** The states after each pass from 10000 ms to 13000 ms of that run. *)
Definition c3_after : list State :=
  skipn 1001 (states (samples released c3_levelB 1301) booted).

(** A pass with A pressed, then a duration change. *)
Definition c10_state : State :=
  apply_event HoldRepeatB (step booted (mkInput 5 LOW HIGH)).

(** A clicked, then B held past the long-press threshold. *)
Definition c2_levelA : Z -> bool := pressed_during [(10, 200)].
Definition c2_levelB : Z -> bool := pressed_during [(500, 1400)].

(** ** Checking a property on a range of integers *)

(** [f] holds on the [n] integers from [lo] upwards. *)
Fixpoint all_from (lo : Z) (n : nat) (f : Z -> bool) : bool :=
  match n with
  | O => true
  | S n' => f lo && all_from (lo + 1) n' f
  end.

(** The character of a decimal digit. *)
Definition digit_char (z : Z) : ascii := ascii_of_nat (48 + Z.to_nat z).

(** Reading a time text back: the decimal number before the colon counts
    minutes, the one after it seconds. *)
Definition digit_value (c : ascii) : Z := Z.of_nat (nat_of_ascii c) - 48.

Fixpoint read_time_from (minutes acc : Z) (seen_colon : bool) (txt : string) : Z :=
  match txt with
  | EmptyString => 60 * minutes + acc
  | String c rest =>
      if Ascii.eqb c ":" then read_time_from acc 0 true rest
      else read_time_from minutes (10 * acc + digit_value c) seen_colon rest
  end.

Definition read_time (txt : string) : Z := read_time_from 0 0 false txt.

(** More that holds of the timer variables in every reachable state: what
    the finished flag implies, that a running countdown has time left, and
    that Countdown mode at zero means finished. *)
Definition timers_settled (t : TimerVars) : Prop :=
  let '(m, sw, swr, d, cd, cdr, fin) := t in
  (fin = true -> swr = false /\ cdr = false /\ cd = 0 /\ m <> STOPWATCH) /\
  (cdr = true -> 0 < cd) /\
  (m = COUNTDOWN -> 0 < cd \/ fin = true).

(** B clicked from power-on, then ten ticks: the countdown has expired. *)
Definition c5_state : State :=
  apply_events (ShortPressB :: repeat Tick 10) booted.

(** A function of the state that reads neither the display side nor the
    timer variables: the timer blocks leave it alone. *)
Definition timer_blind {X : Type} (f : State -> X) : Prop :=
  display_blind f /\
  (forall v s, f (set_currentMode v s) = f s) /\
  (forall v s, f (set_stopwatchSeconds v s) = f s) /\
  (forall v s, f (set_isStopwatchRunning v s) = f s) /\
  (forall v s, f (set_initialCountdownSetting v s) = f s) /\
  (forall v s, f (set_countdownSeconds v s) = f s) /\
  (forall v s, f (set_isCountdownRunning v s) = f s) /\
  (forall v s, f (set_countdownFinished v s) = f s).

(** The eight display calls of a full repaint, latest first. *)
Definition repaint (line0 line1 : string) : list Output :=
  [LcdPrint line1; LcdSetCursor 0 1; LcdPrint "                ";
   LcdSetCursor 0 1;
   LcdPrint line0; LcdSetCursor 0 0; LcdPrint "                ";
   LcdSetCursor 0 0].

(** Button A keeps bouncing through a run: in every pass its pin level
    differs from the one read in the pass before, or at most the debounce
    window has gone by since the last change. *)
Fixpoint bouncingA (inputs : list Input) (s : State) : bool :=
  match inputs with
  | [] => true
  | i :: rest =>
      (negb (Bool.eqb (pinA i) (lastRawA s))
       || (u32 (u32 (millis i) - lastDebounceTimeA s) <=? DEBOUNCE_MS))
      && bouncingA rest (step s i)
  end.

Fixpoint bouncingB (inputs : list Input) (s : State) : bool :=
  match inputs with
  | [] => true
  | i :: rest =>
      (negb (Bool.eqb (pinB i) (lastRawB s))
       || (u32 (u32 (millis i) - lastDebounceTimeB s) <=? DEBOUNCE_MS))
      && bouncingB rest (step s i)
  end.

(** A flips every 10 ms, 40 times. *)
Definition chatter (t : Z) : bool := Z.even (t / 10).

(** ** Basic facts *)

Lemma wrap_int_small z : INT_MIN <= z <= INT_MAX -> wrap_int z = z.
Proof.
  unfold INT_MIN, INT_MAX, wrap_int. intros H.
  rewrite Z.mod_small by lia. lia.
Qed.

Lemma wrap_int_range z : INT_MIN <= wrap_int z <= INT_MAX.
Proof.
  unfold INT_MIN, INT_MAX, wrap_int.
  pose proof (Z.mod_pos_bound (z + 32768) 65536 ltac:(lia)). lia.
Qed.

Lemma timers_safePrintLine row txt s :
  timers (safePrintLine row txt s) = timers s.
Proof.
  unfold safePrintLine.
  destruct (negb _); [destruct (row =? 0)|]; reflexivity.
Qed.

Lemma timers_digitalWrite_LED level s :
  timers (digitalWrite_LED level s) = timers s.
Proof. reflexivity. Qed.

Lemma timers_fields s s' :
  timers s' = timers s ->
  currentMode s' = currentMode s /\
  stopwatchSeconds s' = stopwatchSeconds s /\
  isStopwatchRunning s' = isStopwatchRunning s /\
  initialCountdownSetting s' = initialCountdownSetting s /\
  countdownSeconds s' = countdownSeconds s /\
  isCountdownRunning s' = isCountdownRunning s /\
  countdownFinished s' = countdownFinished s.
Proof. unfold timers. intros H. inversion H. repeat split; reflexivity. Qed.

Lemma timers_updateLCD s : timers (updateLCD s) = timers s.
Proof.
  unfold updateLCD.
  set (s1 := if negb _ then _ else s).
  assert (H1 : timers s1 = timers s) by (subst s1; destruct (negb _); reflexivity).
  destruct (timers_fields _ _ H1) as (Hm & _).
  rewrite <- H1.
  destruct (currentMode s1).
  - now rewrite !timers_safePrintLine.
  - now rewrite !timers_safePrintLine.
  - rewrite (proj1 (proj2 (proj2 (proj2 (proj2
        (timers_fields _ _ (timers_safePrintLine 0 "   COUNTDOWN" s1))))))).
    destruct (countdownSeconds s1 >? 0).
    + now rewrite !timers_safePrintLine.
    + now rewrite timers_digitalWrite_LED, !timers_safePrintLine.
Qed.

Lemma timers_fields_of s t :
  timers s = t ->
  currentMode s = (let '(m, _, _, _, _, _, _) := t in m) /\
  stopwatchSeconds s = (let '(_, sw, _, _, _, _, _) := t in sw) /\
  isStopwatchRunning s = (let '(_, _, swr, _, _, _, _) := t in swr) /\
  initialCountdownSetting s = (let '(_, _, _, d, _, _, _) := t in d) /\
  countdownSeconds s = (let '(_, _, _, _, cd, _, _) := t in cd) /\
  isCountdownRunning s = (let '(_, _, _, _, _, cdr, _) := t in cdr) /\
  countdownFinished s = (let '(_, _, _, _, _, _, fin) := t in fin).
Proof. intros <-. repeat split; reflexivity. Qed.

Lemma timers_tuple s m sw swr d cd cdr fin :
  timers s = (m, sw, swr, d, cd, cdr, fin) ->
  currentMode s = m /\ stopwatchSeconds s = sw /\
  isStopwatchRunning s = swr /\ initialCountdownSetting s = d /\
  countdownSeconds s = cd /\ isCountdownRunning s = cdr /\
  countdownFinished s = fin.
Proof. unfold timers. intros H. inversion H. repeat split; reflexivity. Qed.

(** What each block does to the timer variables. *)

Lemma timers_shortClickA s :
  timers (shortClickA s) =
  if mode_eqb (currentMode s) STOPWATCH
  then (currentMode s, stopwatchSeconds s, negb (isStopwatchRunning s),
        initialCountdownSetting s, countdownSeconds s, isCountdownRunning s,
        countdownFinished s)
  else (STOPWATCH, stopwatchSeconds s, true, initialCountdownSetting s,
        countdownSeconds s, false, false).
Proof.
  unfold shortClickA. rewrite timers_updateLCD.
  destruct (mode_eqb (currentMode s) STOPWATCH); reflexivity.
Qed.

Lemma timers_shortClickB s :
  timers (shortClickB s) =
  if isCountdownRunning s
  then (COUNTDOWN, stopwatchSeconds s, false, initialCountdownSetting s,
        countdownSeconds s, false, false)
  else if countdownSeconds s <=? 0
  then (COUNTDOWN, stopwatchSeconds s, false, initialCountdownSetting s,
        initialCountdownSetting s, true, false)
  else (COUNTDOWN, stopwatchSeconds s, false, initialCountdownSetting s,
        countdownSeconds s, true, false).
Proof.
  unfold shortClickB. rewrite timers_updateLCD. cbn.
  destruct (isCountdownRunning s); [reflexivity|].
  destruct (countdownSeconds s <=? 0); reflexivity.
Qed.

Lemma timers_resetEverything s :
  timers (resetEverything s) =
  (IDLE, 0, false, initialCountdownSetting s, 0, false, false).
Proof. unfold resetEverything. rewrite timers_updateLCD. reflexivity. Qed.

Lemma timers_increaseCountdownSetting s :
  timers (increaseCountdownSetting s) =
  (IDLE, stopwatchSeconds s, isStopwatchRunning s,
   (if wrap_int (initialCountdownSetting s + COUNT_STEP) >? COUNT_MAX
    then COUNT_MIN else wrap_int (initialCountdownSetting s + COUNT_STEP)),
   countdownSeconds s, isCountdownRunning s, countdownFinished s).
Proof.
  unfold increaseCountdownSetting. rewrite timers_updateLCD. cbn.
  destruct (wrap_int (initialCountdownSetting s + COUNT_STEP) >? COUNT_MAX);
    reflexivity.
Qed.

Lemma timers_tickSecond s :
  timers (tickSecond s) =
  let sw := if isStopwatchRunning s then wrap_int (stopwatchSeconds s + 1)
            else stopwatchSeconds s in
  if isCountdownRunning s && (countdownSeconds s >? 0)
  then if wrap_int (countdownSeconds s - 1) =? 0
       then (currentMode s, sw, isStopwatchRunning s,
             initialCountdownSetting s, wrap_int (countdownSeconds s - 1),
             false, true)
       else (currentMode s, sw, isStopwatchRunning s,
             initialCountdownSetting s, wrap_int (countdownSeconds s - 1),
             true, countdownFinished s)
  else (currentMode s, sw, isStopwatchRunning s, initialCountdownSetting s,
        countdownSeconds s, isCountdownRunning s, countdownFinished s).
Proof.
  unfold tickSecond.
  set (s1 := if isStopwatchRunning s then _ else s).
  assert (H1 : timers s1 =
    (currentMode s,
     (if isStopwatchRunning s then wrap_int (stopwatchSeconds s + 1)
      else stopwatchSeconds s),
     isStopwatchRunning s, initialCountdownSetting s, countdownSeconds s,
     isCountdownRunning s, countdownFinished s)).
  { subst s1. destruct (isStopwatchRunning s) eqn:E.
    - cbn [currentMode set_stopwatchSeconds].
      destruct (mode_eqb (currentMode s) STOPWATCH);
        [rewrite timers_updateLCD|]; unfold timers; cbn; rewrite E; reflexivity.
    - unfold timers. rewrite E. reflexivity. }
  destruct (timers_tuple _ _ _ _ _ _ _ _ H1) as (Hm & Hsw & Hr & Hd & Hc & Hcr & Hf).
  cbn zeta. rewrite Hcr, Hc.
  destruct (isCountdownRunning s); cbn [andb]; [|rewrite H1; reflexivity].
  destruct (countdownSeconds s >? 0); [|rewrite H1; reflexivity].
  set (s2 := set_countdownSeconds _ s1).
  set (s3 := if mode_eqb (currentMode s2) COUNTDOWN then updateLCD s2 else s2).
  assert (H3 : timers s3 = timers s2)
    by (subst s3; destruct (mode_eqb (currentMode s2) COUNTDOWN);
        [apply timers_updateLCD|reflexivity]).
  assert (H2 : timers s2 =
    (currentMode s,
     (if isStopwatchRunning s then wrap_int (stopwatchSeconds s + 1)
      else stopwatchSeconds s),
     isStopwatchRunning s, initialCountdownSetting s,
     wrap_int (countdownSeconds s - 1), isCountdownRunning s1,
     countdownFinished s))
    by (subst s2; unfold timers; cbn; rewrite Hm, Hsw, Hr, Hd, Hf; reflexivity).
  rewrite H2 in H3.
  destruct (timers_tuple _ _ _ _ _ _ _ _ H3) as (Km & Ksw & Kr & Kd & Kc & Kcr & Kf).
  rewrite Kc.
  destruct (wrap_int (countdownSeconds s - 1) =? 0).
  - rewrite timers_updateLCD. unfold timers. cbn.
    rewrite Km, Ksw, Kr, Kd, Kc. reflexivity.
  - rewrite H3, Hcr. reflexivity.
Qed.

Lemma timers_apply_event e s :
  timers (apply_event e s) = timer_event e (timers s).
Proof.
  destruct e; cbn [apply_event].
  - rewrite timers_shortClickA. reflexivity.
  - rewrite timers_resetEverything. reflexivity.
  - rewrite timers_shortClickB. reflexivity.
  - rewrite timers_increaseCountdownSetting. reflexivity.
  - rewrite timers_increaseCountdownSetting. reflexivity.
  - rewrite timers_tickSecond. reflexivity.
Qed.

Lemma timers_apply_events es s :
  timers (apply_events es s) = timer_events es (timers s).
Proof.
  revert s. induction es as [|e es IH]; intros s; [reflexivity|].
  cbn. rewrite IH, timers_apply_event. reflexivity.
Qed.

Lemma timer_events_app es1 es2 t :
  timer_events (es1 ++ es2) t = timer_events es2 (timer_events es1 t).
Proof. apply fold_left_app. Qed.

Lemma timers_shortClickA_from s0 s :
  timers s0 = timers s ->
  timers (shortClickA s0) = timer_events [ShortPressA] (timers s).
Proof. intros H. rewrite timers_shortClickA, <- H. reflexivity. Qed.

Lemma timers_shortClickB_from s0 s :
  timers s0 = timers s ->
  timers (shortClickB s0) = timer_events [ShortPressB] (timers s).
Proof. intros H. rewrite timers_shortClickB, <- H. reflexivity. Qed.

Lemma timers_resetEverything_from s0 s :
  timers s0 = timers s ->
  timers (resetEverything s0) = timer_events [LongPressStartA] (timers s).
Proof. intros H. rewrite timers_resetEverything, <- H. reflexivity. Qed.

Lemma timers_increaseCountdownSetting_from s0 s :
  timers s0 = timers s ->
  timers (increaseCountdownSetting s0) = timer_events [HoldRepeatB] (timers s).
Proof. intros H. rewrite timers_increaseCountdownSetting, <- H. reflexivity. Qed.

Lemma timers_tickSecond_from s0 s :
  timers s0 = timers s ->
  timers (tickSecond s0) = timer_events [Tick] (timers s).
Proof. intros H. rewrite timers_tickSecond, <- H. reflexivity. Qed.

Lemma timers_set_lastRawA v s : timers (set_lastRawA v s) = timers s.
Proof. reflexivity. Qed.

Lemma timers_set_lastRawB v s : timers (set_lastRawB v s) = timers s.
Proof. reflexivity. Qed.

Lemma timers_debounceA now rawA s :
  exists a, timers (debounceA now rawA s) =
            timer_events (pick a ShortPressA) (timers s).
Proof.
  unfold debounceA.
  set (s1 := if negb (Bool.eqb rawA (lastRawA s)) then _ else s).
  assert (H1 : timers s1 = timers s) by (subst s1; destruct (negb _); reflexivity).
  destruct (_ && _); [|exists false; rewrite <- H1; reflexivity].
  cbn [stableA set_stableA].
  destruct (Bool.eqb rawA LOW); [exists false; rewrite <- H1; reflexivity|].
  destruct (_ && _); [|exists false; rewrite <- H1; reflexivity].
  exists true. rewrite timers_set_lastRawA.
  apply timers_shortClickA_from. rewrite <- H1. reflexivity.
Qed.

Lemma timers_debounceB now rawB s :
  exists b, timers (debounceB now rawB s) =
            timer_events (pick b ShortPressB) (timers s).
Proof.
  unfold debounceB.
  set (s1 := if negb (Bool.eqb rawB (lastRawB s)) then _ else s).
  assert (H1 : timers s1 = timers s) by (subst s1; destruct (negb _); reflexivity).
  destruct (_ && _); [|exists false; rewrite <- H1; reflexivity].
  cbn [stableB set_stableB].
  destruct (Bool.eqb rawB LOW); [exists false; rewrite <- H1; reflexivity|].
  destruct (_ && _); [|exists false; rewrite <- H1; reflexivity].
  exists true. rewrite timers_set_lastRawB.
  apply timers_shortClickB_from. rewrite <- H1. reflexivity.
Qed.

Lemma timers_holdA now s :
  exists c, timers (holdA now s) =
            timer_events (pick c LongPressStartA) (timers s).
Proof.
  unfold holdA. destruct (_ && _).
  - exists true. now apply timers_resetEverything_from.
  - exists false. reflexivity.
Qed.

Lemma timers_holdB now s :
  exists d, timers (holdB now s) =
            timer_events (pick d HoldRepeatB) (timers s).
Proof.
  unfold holdB. destruct (_ && _); [|exists false; reflexivity].
  destruct (_ >=? _).
  - exists true. now apply timers_increaseCountdownSetting_from.
  - exists false. reflexivity.
Qed.

Lemma timers_tick now s :
  exists e, timers (tick now s) = timer_events (pick e Tick) (timers s).
Proof.
  unfold tick. destruct (_ >=? _); [|exists false; reflexivity].
  exists true. now apply timers_tickSecond_from.
Qed.

Lemma timers_ledBehavior now s : timers (ledBehavior now s) = timers s.
Proof.
  unfold ledBehavior.
  destruct (_ || _); [destruct (_ >=? _); reflexivity|].
  destruct (countdownFinished s); [destruct (_ >=? _)|]; reflexivity.
Qed.

Lemma timers_loop m rawA rawB s :
  exists a b c d e,
    timers (loop m rawA rawB s) = timer_events (pass_events a b c d e) (timers s).
Proof.
  unfold loop. cbn zeta. rewrite timers_updateLCD, timers_ledBehavior.
  set (now := u32 m).
  destruct (timers_debounceA now rawA s) as [a Ha].
  destruct (timers_debounceB now rawB (debounceA now rawA s)) as [b Hb].
  destruct (timers_holdA now (debounceB now rawB (debounceA now rawA s)))
    as [c Hc].
  destruct (timers_holdB now
              (holdA now (debounceB now rawB (debounceA now rawA s))))
    as [d Hd].
  destruct (timers_tick now
              (holdB now (holdA now (debounceB now rawB (debounceA now rawA s)))))
    as [e He].
  exists a, b, c, d, e. unfold pass_events.
  rewrite He, Hd, Hc, Hb, Ha, !timer_events_app. reflexivity.
Qed.

(** ** The invariant of the timer variables *)

Ltac split_timers t :=
  destruct t as [[[[[[?m ?sw] ?swr] ?d] ?cd] ?cdr] ?fin].

Ltac case_cmp :=
  repeat match goal with
    | |- context [?a >? ?b] => destruct (Z.gtb_spec a b)
    | |- context [?a <=? ?b] => destruct (Z.leb_spec a b)
    | |- context [?a =? ?b] => destruct (Z.eqb_spec a b)
    end.

Lemma timers_ok_event e t : timers_ok t -> timers_ok (timer_event e t).
Proof.
  split_timers t. unfold timers_ok, COUNT_MIN, COUNT_MAX.
  intros (Hd & Hc & Hs & Hk & Hx).
  assert (Wd : wrap_int (d + COUNT_STEP) = d + COUNT_STEP)
    by (apply wrap_int_small; unfold INT_MIN, INT_MAX, COUNT_STEP; lia).
  assert (Wc : wrap_int (cd - 1) = cd - 1)
    by (apply wrap_int_small; unfold INT_MIN, INT_MAX; lia).
  destruct e; unfold timer_event; rewrite ?Wd, ?Wc;
    unfold COUNT_STEP, COUNT_MIN, COUNT_MAX.
  - destruct m; cbn; repeat split; try lia; try congruence;
      destruct swr, cdr; cbn; intuition congruence.
  - repeat split; try lia; intuition congruence.
  - destruct cdr; [|case_cmp]; repeat split; try lia; intuition congruence.
  - case_cmp; repeat split; try lia; intuition congruence.
  - case_cmp; repeat split; try lia; intuition congruence.
  - destruct cdr; cbn [andb]; case_cmp; repeat split; try lia;
      intuition congruence.
Qed.

Lemma timers_ok_events es t : timers_ok t -> timers_ok (timer_events es t).
Proof.
  revert t. induction es as [|e es IH]; intros t H; [exact H|].
  cbn. apply IH, timers_ok_event, H.
Qed.

Lemma timers_ok_booted : timers_ok (timers booted).
Proof.
  unfold booted, setup. rewrite timers_updateLCD. cbn.
  unfold COUNT_MIN, COUNT_MAX. repeat split; try lia; intuition congruence.
Qed.

Lemma reachable_timers_ok s : reachable s -> timers_ok (timers s).
Proof.
  induction 1 as [|s i _ IH|s e _ IH].
  - exact timers_ok_booted.
  - unfold step.
    destruct (timers_loop (millis i) (pinA i) (pinB i) s)
      as (a & b & c & d & e & ->).
    apply timers_ok_events, IH.
  - rewrite timers_apply_event. apply timers_ok_event, IH.
Qed.

(** ** Remaining seconds against the configured duration *)

Lemma tv_duration_timers s : tv_duration (timers s) = initialCountdownSetting s.
Proof. reflexivity. Qed.

Lemma tv_remaining_timers s : tv_remaining (timers s) = countdownSeconds s.
Proof. reflexivity. Qed.

(** Every event but a duration change keeps the duration and keeps the
    remaining seconds below it. *)
Lemma event_keeps_below e t :
  is_duration_change e = false -> timers_ok t ->
  tv_duration (timer_event e t) = tv_duration t /\
  (tv_remaining t <= tv_duration t ->
   tv_remaining (timer_event e t) <= tv_duration t).
Proof.
  split_timers t. unfold timers_ok, COUNT_MIN, COUNT_MAX.
  intros He (Hd & Hc & _).
  assert (Wc : wrap_int (cd - 1) = cd - 1)
    by (apply wrap_int_small; unfold INT_MIN, INT_MAX; lia).
  destruct e; try discriminate He; unfold timer_event; rewrite ?Wc; cbn.
  - destruct (mode_eqb m STOPWATCH); cbn; (split; [reflexivity|auto]).
  - split; [reflexivity|lia].
  - destruct cdr; [|case_cmp]; cbn; split; try reflexivity; lia.
  - destruct cdr; cbn [andb]; case_cmp; cbn; split; try reflexivity; lia.
Qed.

Lemma pick_keeps_below b e t :
  is_duration_change e = false -> timers_ok t ->
  tv_duration (timer_events (pick b e) t) = tv_duration t /\
  (tv_remaining t <= tv_duration t ->
   tv_remaining (timer_events (pick b e) t) <= tv_duration t).
Proof.
  intros He Hok. destruct b; cbn.
  - apply event_keeps_below; assumption.
  - split; [reflexivity|auto].
Qed.

(** A duration change does not touch the remaining seconds. *)
Lemma duration_change_remaining e t :
  is_duration_change e = true ->
  tv_remaining (timer_event e t) = tv_remaining t.
Proof. split_timers t. destruct e; try discriminate; reflexivity. Qed.

Lemma pass_keeps_below a b c d e t :
  timers_ok t ->
  tv_remaining t <= tv_duration t ->
  tv_duration t <= tv_duration (timer_events (pass_events a b c d e) t) ->
  tv_remaining (timer_events (pass_events a b c d e) t)
  <= tv_duration (timer_events (pass_events a b c d e) t).
Proof.
  intros Hok Hle. unfold pass_events. rewrite !timer_events_app.
  set (t1 := timer_events (pick a ShortPressA) t).
  set (t2 := timer_events (pick b ShortPressB) t1).
  set (t3 := timer_events (pick c LongPressStartA) t2).
  set (t4 := timer_events (pick d HoldRepeatB) t3).
  assert (Hok1 : timers_ok t1) by now apply timers_ok_events.
  assert (Hok2 : timers_ok t2) by now apply timers_ok_events.
  assert (Hok3 : timers_ok t3) by now apply timers_ok_events.
  assert (Hok4 : timers_ok t4) by now apply timers_ok_events.
  destruct (pick_keeps_below a ShortPressA t eq_refl Hok) as [D1 R1].
  destruct (pick_keeps_below b ShortPressB t1 eq_refl Hok1) as [D2 R2].
  destruct (pick_keeps_below c LongPressStartA t2 eq_refl Hok2) as [D3 R3].
  destruct (pick_keeps_below e Tick t4 eq_refl Hok4) as [D5 R5].
  fold t1 in D1, R1. fold t2 in D2, R2. fold t3 in D3, R3.
  assert (R4 : tv_remaining t4 = tv_remaining t3).
  { subst t4. destruct d; [|reflexivity].
    apply (duration_change_remaining HoldRepeatB). reflexivity. }
  rewrite D5. intros Hup. apply R5.
  specialize (R1 Hle). rewrite <- D1 in R1. specialize (R2 R1).
  rewrite <- D2 in R2. specialize (R3 R2). lia.
Qed.

(** ** Claims on the timer variables *)

Lemma reachable_fields_ok s :
  reachable s ->
  COUNT_MIN <= initialCountdownSetting s <= COUNT_MAX /\
  0 <= countdownSeconds s <= COUNT_MAX /\
  (isStopwatchRunning s = true -> currentMode s <> COUNTDOWN) /\
  (isCountdownRunning s = true -> currentMode s <> STOPWATCH) /\
  ~ (isStopwatchRunning s = true /\ isCountdownRunning s = true).
Proof. intros H. exact (reachable_timers_ok s H). Qed.

(** C1, as the code has it: in every reachable state the remaining seconds
    are in [0, COUNT_MAX] and the configured duration is in
    [COUNT_MIN, COUNT_MAX]; and a move of the sketch (a pass of [loop] or an
    event) that does not lower the configured duration keeps the remaining
    seconds at or below it.  Only a duration change that wraps from above
    290 back to 10 can leave the remaining seconds above the duration. *)
Theorem remaining_within_limits s :
  reachable s ->
  (0 <= countdownSeconds s <= COUNT_MAX /\
   COUNT_MIN <= initialCountdownSetting s <= COUNT_MAX) /\
  (forall s', transition s s' ->
     countdownSeconds s <= initialCountdownSetting s ->
     initialCountdownSetting s <= initialCountdownSetting s' ->
     countdownSeconds s' <= initialCountdownSetting s').
Proof.
  intros Hr. pose proof (reachable_timers_ok s Hr) as Hok.
  split.
  - destruct (reachable_fields_ok s Hr) as (Hd & Hc & _). split; assumption.
  - intros s' [i|e];
      rewrite <- !tv_remaining_timers, <- !tv_duration_timers.
    + unfold step.
      destruct (timers_loop (millis i) (pinA i) (pinB i) s)
        as (a & b & c & d & e & ->).
      now apply pass_keeps_below.
    + rewrite timers_apply_event. intros Hle Hup.
      destruct (is_duration_change e) eqn:He.
      * rewrite duration_change_remaining by exact He. lia.
      * destruct (event_keeps_below e (timers s) He Hok) as [D R].
        rewrite D. auto.
Qed.

Lemma remaining_within_limits_witness :
  reachable booted /\
  (0 <= countdownSeconds booted <= COUNT_MAX /\
   COUNT_MIN <= initialCountdownSetting booted <= COUNT_MAX) /\
  (forall s', transition booted s' ->
     countdownSeconds booted <= initialCountdownSetting booted ->
     initialCountdownSetting booted <= initialCountdownSetting s' ->
     countdownSeconds s' <= initialCountdownSetting s').
Proof.
  split; [exact reach_boot | exact (remaining_within_limits booted reach_boot)].
Defined.

(** C1 as stated fails.  Twenty-nine duration changes bring the duration to
    300, a short press of B loads 300 remaining seconds and starts the
    countdown, and one more duration change wraps the duration to 10 with
    300 seconds remaining; the same on the pins (sampled every 10 ms), where
    one tick has gone by: 299 remaining against a duration of 10. *)
Lemma remaining_exceeds_duration :
  (let s := apply_events (repeat HoldRepeatB 29 ++ [ShortPressB; HoldRepeatB])
              booted in
   initialCountdownSetting s = 10 /\ countdownSeconds s = 300 /\
   isCountdownRunning s = true) /\
  (let s := run (samples released c1_levelB 1237) booted in
   initialCountdownSetting s = 10 /\ countdownSeconds s = 299 /\
   isCountdownRunning s = true).
Proof. vm_compute. repeat split; reflexivity. Qed.

(** C2, as the code has it: in every reachable state a running stopwatch
    means the mode is Stopwatch or Idle, and a running countdown means the
    mode is Countdown or Idle; a short press of A leaves the mode at
    Stopwatch with the countdown stopped, and a short press of B leaves the
    mode at Countdown with the stopwatch stopped. *)
Theorem running_timer_mode s :
  reachable s ->
  (isStopwatchRunning s = true ->
   currentMode s = STOPWATCH \/ currentMode s = IDLE) /\
  (isCountdownRunning s = true ->
   currentMode s = COUNTDOWN \/ currentMode s = IDLE) /\
  (currentMode (apply_event ShortPressA s) = STOPWATCH /\
   isCountdownRunning (apply_event ShortPressA s) = false) /\
  (currentMode (apply_event ShortPressB s) = COUNTDOWN /\
   isStopwatchRunning (apply_event ShortPressB s) = false).
Proof.
  intros Hr. destruct (reachable_fields_ok s Hr) as (_ & _ & Hs & Hc & _).
  repeat split.
  - intros H. specialize (Hs H). destruct (currentMode s); auto; congruence.
  - intros H. specialize (Hc H). destruct (currentMode s); auto; congruence.
  - destruct (timers_fields_of _ _ (timers_apply_event ShortPressA s)) as (-> & _).
    unfold timers. cbn. destruct (currentMode s); reflexivity.
  - destruct (timers_fields_of _ _ (timers_apply_event ShortPressA s))
      as (_ & _ & _ & _ & _ & -> & _).
    unfold timers. cbn. destruct (currentMode s) eqn:E; cbn; try reflexivity.
    destruct (isCountdownRunning s); [exfalso; now apply Hc|reflexivity].
  - destruct (timers_fields_of _ _ (timers_apply_event ShortPressB s)) as (-> & _).
    unfold timers. cbn.
    destruct (isCountdownRunning s); [|destruct (_ <=? _)]; reflexivity.
  - destruct (timers_fields_of _ _ (timers_apply_event ShortPressB s))
      as (_ & _ & -> & _).
    unfold timers. cbn.
    destruct (isCountdownRunning s); [|destruct (_ <=? _)]; reflexivity.
Qed.

Lemma running_timer_mode_witness :
  reachable booted /\
  (isStopwatchRunning booted = true ->
   currentMode booted = STOPWATCH \/ currentMode booted = IDLE) /\
  (isCountdownRunning booted = true ->
   currentMode booted = COUNTDOWN \/ currentMode booted = IDLE) /\
  (currentMode (apply_event ShortPressA booted) = STOPWATCH /\
   isCountdownRunning (apply_event ShortPressA booted) = false) /\
  (currentMode (apply_event ShortPressB booted) = COUNTDOWN /\
   isStopwatchRunning (apply_event ShortPressB booted) = false).
Proof.
  split; [exact reach_boot | exact (running_timer_mode booted reach_boot)].
Defined.

(** C2 as stated fails.  A short press of A starts the stopwatch; a long
    press of B then shows Idle and the stopwatch keeps running.  The same on
    the pins, sampled every 10 ms. *)
Lemma stopwatch_runs_in_idle :
  (let s := apply_events [ShortPressA; LongPressStartB] booted in
   isStopwatchRunning s = true /\ currentMode s = IDLE) /\
  (let s := run (samples c2_levelA c2_levelB 138) booted in
   isStopwatchRunning s = true /\ currentMode s = IDLE).
Proof. vm_compute. repeat split; reflexivity. Qed.

(** C6: after any event applied in any reachable state, the stopwatch and
    the countdown are not both running. *)
Theorem mode_exclusivity s e :
  reachable s ->
  ~ (isStopwatchRunning (apply_event e s) = true /\
     isCountdownRunning (apply_event e s) = true).
Proof.
  intros Hr.
  exact (proj2 (proj2 (proj2 (proj2
           (reachable_fields_ok _ (reach_event s e Hr)))))).
Qed.

Lemma mode_exclusivity_witness :
  reachable booted /\
  ~ (isStopwatchRunning (apply_event ShortPressA booted) = true /\
     isCountdownRunning (apply_event ShortPressA booted) = true).
Proof.
  split; [exact reach_boot | exact (mode_exclusivity booted ShortPressA reach_boot)].
Defined.

Lemma duration_change_step e s :
  is_duration_change e = true ->
  COUNT_MIN <= initialCountdownSetting s <= COUNT_MAX ->
  initialCountdownSetting (apply_event e s) =
    (if initialCountdownSetting s + COUNT_STEP >? COUNT_MAX then COUNT_MIN
     else initialCountdownSetting s + COUNT_STEP) /\
  COUNT_MIN <= initialCountdownSetting (apply_event e s) <= COUNT_MAX.
Proof.
  intros He. unfold COUNT_MIN, COUNT_MAX, COUNT_STEP. intros Hd.
  destruct (timers_fields_of _ _ (timers_apply_event e s))
    as (_ & _ & _ & -> & _).
  assert (W : wrap_int (initialCountdownSetting s + 10) =
              initialCountdownSetting s + 10)
    by (apply wrap_int_small; unfold INT_MIN, INT_MAX; lia).
  destruct e; try discriminate He; unfold timers; cbn;
    unfold COUNT_MIN, COUNT_MAX, COUNT_STEP; rewrite W;
    case_cmp; split; (reflexivity || lia).
Qed.

Lemma duration_changes_range es s :
  forallb is_duration_change es = true ->
  COUNT_MIN <= initialCountdownSetting s <= COUNT_MAX ->
  COUNT_MIN <= initialCountdownSetting (apply_events es s) <= COUNT_MAX.
Proof.
  revert s. induction es as [|e es IH]; intros s Hes Hd; [exact Hd|].
  cbn in Hes. apply andb_prop in Hes. destruct Hes as [He Hes].
  cbn. apply IH; [exact Hes|].
  apply (duration_change_step e s He Hd).
Qed.

(** C7: along any sequence of LongPressStart(B)/HoldRepeat(B) firings that
    starts with the configured duration in [10, 300], every firing adds
    exactly 10 to the duration, except that a result above 300 becomes 10;
    the duration stays in [10, 300] throughout. *)
Theorem countdown_clamp es e s :
  forallb is_duration_change es = true ->
  is_duration_change e = true ->
  10 <= initialCountdownSetting s <= 300 ->
  let s1 := apply_events es s in
  let s2 := apply_event e s1 in
  10 <= initialCountdownSetting s1 <= 300 /\
  initialCountdownSetting s2 =
    (if initialCountdownSetting s1 + 10 >? 300 then 10
     else initialCountdownSetting s1 + 10) /\
  10 <= initialCountdownSetting s2 <= 300.
Proof.
  intros Hes He Hd s1 s2.
  pose proof (duration_changes_range es s Hes Hd) as H1. fold s1 in H1.
  split; [exact H1|]. exact (duration_change_step e s1 He H1).
Qed.

Lemma countdown_clamp_witness :
  forallb is_duration_change (repeat HoldRepeatB 29) = true /\
  is_duration_change HoldRepeatB = true /\
  10 <= initialCountdownSetting booted <= 300 /\
  let s1 := apply_events (repeat HoldRepeatB 29) booted in
  let s2 := apply_event HoldRepeatB s1 in
  10 <= initialCountdownSetting s1 <= 300 /\
  initialCountdownSetting s2 =
    (if initialCountdownSetting s1 + 10 >? 300 then 10
     else initialCountdownSetting s1 + 10) /\
  10 <= initialCountdownSetting s2 <= 300.
Proof.
  assert (H : 10 <= initialCountdownSetting booted <= 300)
    by (vm_compute; split; discriminate).
  split; [reflexivity|]. split; [reflexivity|]. split; [exact H|].
  exact (countdown_clamp (repeat HoldRepeatB 29) HoldRepeatB booted
           eq_refl eq_refl H).
Defined.

(** What one tick does while the stopwatch is below [INT_MAX]: the claim's
    four parts. *)
Lemma tickSecond_in_range s :
  INT_MIN <= stopwatchSeconds s < INT_MAX ->
  0 <= countdownSeconds s <= INT_MAX ->
  let s' := tickSecond s in
  (isStopwatchRunning s = true ->
   stopwatchSeconds s' = stopwatchSeconds s + 1) /\
  (isCountdownRunning s = true -> countdownSeconds s > 0 ->
   countdownSeconds s' = countdownSeconds s - 1 /\
   (countdownSeconds s' = 0 ->
    isCountdownRunning s' = false /\ countdownFinished s' = true)) /\
  (isStopwatchRunning s = false ->
   stopwatchSeconds s' = stopwatchSeconds s /\ isStopwatchRunning s' = false) /\
  (isCountdownRunning s = false ->
   countdownSeconds s' = countdownSeconds s /\ isCountdownRunning s' = false /\
   countdownFinished s' = countdownFinished s).
Proof.
  intros Hsw Hcd s'. unfold INT_MAX, INT_MIN in Hsw, Hcd.
  destruct (timers_fields_of _ _ (timers_tickSecond s))
    as (_ & Esw & Eswr & _ & Ecd & Ecdr & Efin).
  fold s' in Esw, Eswr, Ecd, Ecdr, Efin.
  rewrite Esw, Eswr, Ecd, Ecdr, Efin. clear Esw Eswr Ecd Ecdr Efin.
  assert (Wc : countdownSeconds s > 0 ->
               wrap_int (countdownSeconds s - 1) = countdownSeconds s - 1)
    by (intros; apply wrap_int_small; unfold INT_MIN, INT_MAX; lia).
  assert (Ws : INT_MIN <= stopwatchSeconds s ->
               wrap_int (stopwatchSeconds s + 1) = stopwatchSeconds s + 1)
    by (intros; apply wrap_int_small; unfold INT_MIN, INT_MAX in *; lia).
  unfold INT_MIN in Ws.
  cbn zeta.
  destruct (isStopwatchRunning s) eqn:Er, (isCountdownRunning s) eqn:Ec;
    cbn [andb]; destruct (Z.gtb_spec (countdownSeconds s) 0);
    try destruct (Z.eqb_spec (wrap_int (countdownSeconds s - 1)) 0);
    cbn; repeat split; intros; try discriminate; try reflexivity;
    try (rewrite Wc in * by lia); try lia; try (apply Ws; lia).
Qed.

(** At [INT_MAX] a running stopwatch does not gain a second. *)
Lemma tickSecond_at_INT_MAX s :
  isStopwatchRunning s = true -> stopwatchSeconds s = INT_MAX ->
  stopwatchSeconds (tickSecond s) = INT_MIN.
Proof.
  intros Hr Hs.
  destruct (timers_fields_of _ _ (timers_tickSecond s)) as (_ & -> & _).
  cbn zeta. rewrite Hr, Hs.
  destruct (_ && _); [destruct (_ =? 0)|]; reflexivity.
Qed.

(** C8 fails on the code at the top of the [int] range.  With the stopwatch
    started by a short press of A and left running for 32767 ticks, elapsed
    is 32767; the next tick takes it to -32768 instead of adding 1.  The same
    on the pins: A clicked, then one pass of [loop] per second. *)
Theorem stopwatch_tick_overflow :
  (let s := apply_events (ShortPressA :: repeat Tick (Z.to_nat 32767)) booted in
   isStopwatchRunning s = true /\
   stopwatchSeconds s = 32767 /\
   stopwatchSeconds (apply_event Tick s) = -32768) /\
  (let s := run (samples c2_levelA released 27
                 ++ every_second 1000 (Z.to_nat 32767)) booted in
   isStopwatchRunning s = true /\
   stopwatchSeconds s = 32767 /\
   stopwatchSeconds (step s (mkInput 32768000 HIGH HIGH)) = -32768).
Proof. vm_compute. repeat split; reflexivity. Qed.

(** ** Frame: what the display code leaves alone *)

Lemma frame_safePrintLine {X} (f : State -> X) row txt s :
  display_blind f -> f (safePrintLine row txt s) = f s.
Proof.
  intros (H0 & H1 & _ & _ & Ht). unfold safePrintLine, emit.
  destruct (negb _); [|reflexivity].
  destruct (row =? 0); rewrite ?H0, ?H1, !Ht; reflexivity.
Qed.

Lemma frame_digitalWrite_LED {X} (f : State -> X) level s :
  display_blind f -> f (digitalWrite_LED level s) = f s.
Proof.
  intros (_ & _ & _ & Hp & Ht). unfold digitalWrite_LED, emit.
  rewrite Ht, Hp. reflexivity.
Qed.

Lemma frame_updateLCD {X} (f : State -> X) s :
  display_blind f -> f (updateLCD s) = f s.
Proof.
  intros Hf. pose proof Hf as (H0 & H1 & Hm & _ & _). unfold updateLCD.
  set (s1 := if negb _ then _ else s).
  assert (E1 : f s1 = f s)
    by (subst s1; destruct (negb _); rewrite ?Hm, ?H1, ?H0; reflexivity).
  rewrite <- E1.
  destruct (currentMode s1).
  - now rewrite !frame_safePrintLine.
  - now rewrite !frame_safePrintLine.
  - destruct (_ >? 0).
    + now rewrite !frame_safePrintLine.
    + now rewrite frame_digitalWrite_LED, !frame_safePrintLine.
Qed.

Lemma stableA_blind : display_blind stableA.
Proof. repeat split. Qed.

Lemma stableB_blind : display_blind stableB.
Proof. repeat split. Qed.

Lemma stableA_debounceB now rawB s : stableA (debounceB now rawB s) = stableA s.
Proof.
  unfold debounceB.
  set (s1 := if negb (Bool.eqb rawB (lastRawB s)) then _ else s).
  assert (E1 : stableA s1 = stableA s) by (subst s1; destruct (negb _); reflexivity).
  rewrite <- E1. cbn [stableA set_lastRawB].
  destruct (_ && _); [|reflexivity].
  destruct (Bool.eqb _ LOW); [reflexivity|].
  destruct (_ && _); [|reflexivity].
  unfold shortClickB. rewrite (frame_updateLCD stableA) by exact stableA_blind.
  destruct (isCountdownRunning _); [reflexivity|].
  destruct (_ <=? 0); reflexivity.
Qed.

Lemma stableB_holdA now s : stableB (holdA now s) = stableB s.
Proof.
  unfold holdA. destruct (_ && _); [|reflexivity].
  unfold resetEverything.
  rewrite (frame_updateLCD stableB) by exact stableB_blind. reflexivity.
Qed.

(** C4, as the code has it: when the release of a button is accepted as
    stable with the press held for exactly the long-press threshold, that
    pass of [loop] runs neither the short-click block nor the long-press
    block of the button: the debounce block only records the new levels,
    and the hold block leaves the state as it finds it. *)
Theorem release_at_threshold now rawB s :
  (stableA s = LOW -> lastRawA s = HIGH ->
   u32 (now - lastDebounceTimeA s) > DEBOUNCE_MS ->
   u32 (now - pressStartA s) = LONGPRESS_MS ->
   debounceA now HIGH s = set_lastRawA HIGH (set_stableA HIGH s) /\
   holdA now (debounceB now rawB (debounceA now HIGH s)) =
   debounceB now rawB (debounceA now HIGH s)) /\
  (stableB s = LOW -> lastRawB s = HIGH ->
   u32 (now - lastDebounceTimeB s) > DEBOUNCE_MS ->
   u32 (now - pressStartB s) = LONGPRESS_MS ->
   debounceB now HIGH s = set_lastRawB HIGH (set_stableB HIGH s) /\
   holdB now (holdA now (debounceB now HIGH s)) =
   holdA now (debounceB now HIGH s)).
Proof.
  split; intros Hst Hraw Hdeb Hheld.
  - assert (E : debounceA now HIGH s = set_lastRawA HIGH (set_stableA HIGH s)).
    { unfold debounceA. rewrite Hraw. cbn [Bool.eqb HIGH negb].
      rewrite Hst.
      replace (u32 (now - lastDebounceTimeA s) >? DEBOUNCE_MS) with true
        by (symmetry; apply Z.gtb_lt; lia).
      cbn [andb Bool.eqb LOW negb HIGH stableA set_stableA pressStartA].
      rewrite Hheld. cbn. rewrite andb_false_r. reflexivity. }
    split; [exact E|].
    unfold holdA at 1. rewrite stableA_debounceB, E. reflexivity.
  - assert (E : debounceB now HIGH s = set_lastRawB HIGH (set_stableB HIGH s)).
    { unfold debounceB. rewrite Hraw. cbn [Bool.eqb HIGH negb].
      rewrite Hst.
      replace (u32 (now - lastDebounceTimeB s) >? DEBOUNCE_MS) with true
        by (symmetry; apply Z.gtb_lt; lia).
      cbn [andb Bool.eqb LOW negb HIGH stableB set_stableB pressStartB].
      rewrite Hheld. cbn. rewrite andb_false_r. reflexivity. }
    split; [exact E|].
    unfold holdB at 1. rewrite stableB_holdA, E. reflexivity.
Qed.

Lemma release_at_threshold_witness :
  (stableA c4_stateA = LOW /\ lastRawA c4_stateA = HIGH /\
   u32 (870 - lastDebounceTimeA c4_stateA) > DEBOUNCE_MS /\
   u32 (870 - pressStartA c4_stateA) = LONGPRESS_MS /\
   debounceA 870 HIGH c4_stateA =
     set_lastRawA HIGH (set_stableA HIGH c4_stateA) /\
   holdA 870 (debounceB 870 HIGH (debounceA 870 HIGH c4_stateA)) =
     debounceB 870 HIGH (debounceA 870 HIGH c4_stateA)) /\
  (stableB c4_stateB = LOW /\ lastRawB c4_stateB = HIGH /\
   u32 (870 - lastDebounceTimeB c4_stateB) > DEBOUNCE_MS /\
   u32 (870 - pressStartB c4_stateB) = LONGPRESS_MS /\
   debounceB 870 HIGH c4_stateB =
     set_lastRawB HIGH (set_stableB HIGH c4_stateB) /\
   holdB 870 (holdA 870 (debounceB 870 HIGH c4_stateB)) =
     holdA 870 (debounceB 870 HIGH c4_stateB)).
Proof.
  assert (A1 : stableA c4_stateA = LOW) by (vm_compute; reflexivity).
  assert (A2 : lastRawA c4_stateA = HIGH) by (vm_compute; reflexivity).
  assert (A3 : u32 (870 - lastDebounceTimeA c4_stateA) > DEBOUNCE_MS)
    by (vm_compute; reflexivity).
  assert (A4 : u32 (870 - pressStartA c4_stateA) = LONGPRESS_MS)
    by (vm_compute; reflexivity).
  assert (B1 : stableB c4_stateB = LOW) by (vm_compute; reflexivity).
  assert (B2 : lastRawB c4_stateB = HIGH) by (vm_compute; reflexivity).
  assert (B3 : u32 (870 - lastDebounceTimeB c4_stateB) > DEBOUNCE_MS)
    by (vm_compute; reflexivity).
  assert (B4 : u32 (870 - pressStartB c4_stateB) = LONGPRESS_MS)
    by (vm_compute; reflexivity).
  split.
  - repeat (split; [assumption|]).
    exact (proj1 (release_at_threshold 870 HIGH c4_stateA) A1 A2 A3 A4).
  - repeat (split; [assumption|]).
    exact (proj2 (release_at_threshold 870 HIGH c4_stateB) B1 B2 B3 B4).
Defined.

(** C4 as stated fails.  A is pressed at 10 ms (stable at 70 ms) and let go
    at 810 ms; the pass at 870 ms accepts the release with the press held
    for exactly 800 ms.  No short press happens: the mode is still Idle and
    the stopwatch is not running, where the short-click block would have
    started it.  Let go one sample earlier (held 790 ms), the same press
    starts the stopwatch.  Likewise for B and the countdown. *)
Lemma threshold_release_not_short :
  (stableA c4_stateA = LOW /\ u32 (870 - pressStartA c4_stateA) = 800 /\
   let s' := step c4_stateA (mkInput 870 HIGH HIGH) in
   stableA s' = HIGH /\
   timers s' = timers booted /\
   currentMode s' = IDLE /\ isStopwatchRunning s' = false /\
   isStopwatchRunning (shortClickA c4_stateA) = true /\
   isStopwatchRunning
     (run (samples (pressed_during [(10, 800)]) released 87) booted) = true) /\
  (stableB c4_stateB = LOW /\ u32 (870 - pressStartB c4_stateB) = 800 /\
   let s' := step c4_stateB (mkInput 870 HIGH HIGH) in
   stableB s' = HIGH /\
   timers s' = timers booted /\
   currentMode s' = IDLE /\ isCountdownRunning s' = false /\
   isCountdownRunning (shortClickB c4_stateB) = true /\
   isCountdownRunning
     (run (samples released (pressed_during [(10, 800)]) 87) booted) = true).
Proof. vm_compute. repeat split; reflexivity. Qed.

(** ** The LED in the time-up state *)

Lemma time_up_updateLCD s : time_up (updateLCD s) = time_up s.
Proof.
  unfold time_up.
  destruct (timers_fields _ _ (timers_updateLCD s)) as (-> & _ & _ & _ & -> & _).
  reflexivity.
Qed.

(** In the time-up branch the last thing [updateLCD] does is to drive the
    LED pin high. *)
Lemma updateLCD_time_up_led s : time_up s = true -> ledPin (updateLCD s) = HIGH.
Proof.
  unfold time_up, updateLCD. intros H. apply andb_prop in H. destruct H as [Hm Hc].
  set (s1 := if negb (mode_code (currentMode s) =? lastShownMode s)
             then _ else s).
  assert (E1 : timers s1 = timers s)
    by (subst s1;
        destruct (negb (mode_code (currentMode s) =? lastShownMode s));
        reflexivity).
  destruct (timers_fields _ _ E1) as (Em & _ & _ & _ & Ec & _).
  rewrite Em.
  destruct (currentMode s); try discriminate Hm.
  rewrite (frame_safePrintLine countdownSeconds) by (repeat split).
  rewrite Ec. apply negb_true_iff in Hc. rewrite Hc. reflexivity.
Qed.

Lemma loop_time_up_led m rawA rawB s :
  time_up (loop m rawA rawB s) = true -> ledPin (loop m rawA rawB s) = HIGH.
Proof.
  unfold loop. cbn zeta. rewrite time_up_updateLCD.
  apply updateLCD_time_up_led.
Qed.

(** C3 fails on the code when the countdown expires in Countdown mode.  B is
    clicked at 10 ms, the countdown of 10 s starts and expires in the pass at
    10000 ms.  In each of the 301 passes from 10000 ms to 13000 ms (one every
    10 ms) neither timer is running and the finished flag is set, the blink
    phase [ledState] goes low and high again, and yet the LED pin is high at
    the end of every pass. *)
Theorem time_up_led_stays_on :
  List.length c3_after = 301%nat /\
  forallb (fun s => negb (isStopwatchRunning s) && negb (isCountdownRunning s)
                    && countdownFinished s) c3_after = true /\
  forallb time_up c3_after = true /\
  existsb (fun s => negb (ledState s)) c3_after = true /\
  existsb ledState c3_after = true /\
  forallb ledPin c3_after = true.
Proof. vm_compute. repeat split; reflexivity. Qed.

(** ** The renderer *)

Lemma substring_0_length n t : (String.length (substring 0 n t) <= n)%nat.
Proof.
  revert t. induction n as [|n IH]; intros [|c t]; cbn; try lia.
  specialize (IH t). lia.
Qed.

Lemma substring_0_all n t :
  (String.length t <= n)%nat -> substring 0 n t = t.
Proof.
  revert t. induction n as [|n IH]; intros [|c t]; cbn; intros H;
    try reflexivity; try lia.
  rewrite IH by lia. reflexivity.
Qed.

Lemma snprintf_fits t : (String.length (snprintf 17 t) <= 16)%nat.
Proof. apply substring_0_length. Qed.

Lemma strncpy16_fits t : (String.length t <= 16)%nat -> strncpy16 t = t.
Proof. apply substring_0_all. Qed.

Lemma line0_text_fits s : (String.length (line0_text s) <= 16)%nat.
Proof. unfold line0_text. destruct (currentMode s); cbn; lia. Qed.

Lemma line1_text_fits s : (String.length (line1_text s) <= 16)%nat.
Proof.
  unfold line1_text. destruct (currentMode s); try apply snprintf_fits.
  destruct (_ >? 0); [apply snprintf_fits|cbn; lia].
Qed.

Lemma line0_text_nonempty s : line0_text s <> "".
Proof. unfold line0_text. destruct (currentMode s); discriminate. Qed.

Lemma line1_text_nonempty s : line1_text s <> "".
Proof.
  unfold line1_text.
  destruct (currentMode s); [| |destruct (_ >? 0)]; discriminate.
Qed.

Lemma line_texts_timers s s' :
  timers s' = timers s ->
  line0_text s' = line0_text s /\ line1_text s' = line1_text s /\
  time_up s' = time_up s.
Proof.
  intros H.
  destruct (timers_fields _ _ H) as (Em & Esw & _ & Ed & Ec & _).
  unfold line0_text, line1_text, time_up. rewrite Em, Esw, Ed, Ec.
  repeat split.
Qed.

(** [updateLCD] in one piece: forget the cache on a mode change, print the
    two lines, and in the time-up branch drive the LED. *)
Lemma updateLCD_render s :
  updateLCD s =
  let s2 := safePrintLine 1 (line1_text s)
              (safePrintLine 0 (line0_text s) (invalidate s)) in
  if time_up s then digitalWrite_LED HIGH s2 else s2.
Proof.
  unfold updateLCD. fold (invalidate s).
  assert (E1 : timers (invalidate s) = timers s)
    by (unfold invalidate; destruct (negb _); reflexivity).
  destruct (timers_fields _ _ E1) as (Em & Esw & _ & Ed & Ec & _).
  unfold line0_text, line1_text, time_up. rewrite Em. cbn zeta.
  destruct (currentMode s); cbn [mode_eqb mode_code Z.eqb andb].
  - rewrite (frame_safePrintLine initialCountdownSetting) by (repeat split).
    rewrite Ed. reflexivity.
  - rewrite (frame_safePrintLine stopwatchSeconds) by (repeat split).
    rewrite Esw. reflexivity.
  - rewrite (frame_safePrintLine countdownSeconds) by (repeat split).
    rewrite Ec. destruct (countdownSeconds s >? 0); reflexivity.
Qed.

Lemma safePrintLine0_cached txt s :
  lastLine0 s = txt -> safePrintLine 0 txt s = s.
Proof.
  intros H. unfold safePrintLine. cbn [Z.eqb]. rewrite H, String.eqb_refl.
  reflexivity.
Qed.

Lemma safePrintLine1_cached txt s :
  lastLine1 s = txt -> safePrintLine 1 txt s = s.
Proof.
  intros H. unfold safePrintLine. cbn [Z.eqb]. rewrite H, String.eqb_refl.
  reflexivity.
Qed.

Lemma safePrintLine0_caches txt s :
  (String.length txt <= 16)%nat ->
  lastLine0 (safePrintLine 0 txt s) = txt /\
  lastLine1 (safePrintLine 0 txt s) = lastLine1 s /\
  lastShownMode (safePrintLine 0 txt s) = lastShownMode s.
Proof.
  intros H. unfold safePrintLine. cbn [Z.eqb].
  destruct (String.eqb_spec (lastLine0 s) txt) as [E|E]; cbn.
  - auto.
  - rewrite strncpy16_fits by exact H. auto.
Qed.

Lemma safePrintLine1_caches txt s :
  (String.length txt <= 16)%nat ->
  lastLine1 (safePrintLine 1 txt s) = txt /\
  lastLine0 (safePrintLine 1 txt s) = lastLine0 s /\
  lastShownMode (safePrintLine 1 txt s) = lastShownMode s.
Proof.
  intros H. unfold safePrintLine. cbn [Z.eqb].
  destruct (String.eqb_spec (lastLine1 s) txt) as [E|E]; cbn.
  - auto.
  - rewrite strncpy16_fits by exact H. auto.
Qed.

Lemma invalidate_shown s :
  lastShownMode (invalidate s) = mode_code (currentMode s).
Proof.
  unfold invalidate.
  destruct (Z.eqb_spec (mode_code (currentMode s)) (lastShownMode s)); cbn; auto.
Qed.

Lemma updateLCD_rendered s : rendered (updateLCD s).
Proof.
  destruct (line_texts_timers _ _ (timers_updateLCD s)) as (T0 & T1 & _).
  destruct (timers_fields _ _ (timers_updateLCD s)) as (Em & _).
  unfold rendered. rewrite T0, T1, Em. clear T0 T1 Em.
  rewrite updateLCD_render. cbn zeta.
  destruct (safePrintLine0_caches (line0_text s) (invalidate s)
              (line0_text_fits s)) as (A0 & A1 & Am).
  destruct (safePrintLine1_caches (line1_text s)
              (safePrintLine 0 (line0_text s) (invalidate s))
              (line1_text_fits s)) as (B1 & B0 & Bm).
  rewrite invalidate_shown in Am. rewrite Am in Bm. rewrite A0 in B0.
  destruct (time_up s); cbn [digitalWrite_LED emit lastShownMode lastLine0
    lastLine1 set_trace set_ledPin]; auto.
Qed.

Lemma rendered_updateLCD s :
  rendered s ->
  updateLCD s = if time_up s then digitalWrite_LED HIGH s else s.
Proof.
  intros (Hm & H0 & H1). rewrite updateLCD_render. cbn zeta.
  assert (E : invalidate s = s)
    by (unfold invalidate; rewrite Hm, Z.eqb_refl; reflexivity).
  rewrite E, (safePrintLine0_cached _ _ H0), (safePrintLine1_cached _ _ H1).
  reflexivity.
Qed.

Lemma updateLCD_twice s :
  updateLCD (updateLCD s) =
  if time_up s then digitalWrite_LED HIGH (updateLCD s) else updateLCD s.
Proof.
  rewrite (rendered_updateLCD _ (updateLCD_rendered s)), time_up_updateLCD.
  reflexivity.
Qed.

(** C5, as the code has it: for every state, a second [updateLCD] right
    after the first makes no call to the display; outside the time-up branch
    (mode Countdown with no seconds remaining) it makes no call at all and
    leaves the state as it is. *)
Theorem render_idempotence s :
  lcd_calls (trace (updateLCD (updateLCD s))) = lcd_calls (trace (updateLCD s))
  /\ (time_up s = false -> updateLCD (updateLCD s) = updateLCD s).
Proof.
  rewrite updateLCD_twice. destruct (time_up s); split; try reflexivity.
  discriminate.
Qed.

Lemma render_idempotence_witness :
  time_up booted = false /\
  lcd_calls (trace (updateLCD (updateLCD booted))) =
    lcd_calls (trace (updateLCD booted)) /\
  updateLCD (updateLCD booted) = updateLCD booted.
Proof.
  assert (H : time_up booted = false) by (vm_compute; reflexivity).
  split; [exact H|]. split.
  - exact (proj1 (render_idempotence booted)).
  - exact (proj2 (render_idempotence booted) H).
Defined.

(** C5 as stated fails.  After a click of B and ten ticks the countdown has
    expired in Countdown mode; every further [updateLCD] on that state writes
    the LED pin once more. *)
Lemma second_render_writes_led :
  let s := apply_events (ShortPressB :: repeat Tick 10) booted in
  currentMode s = COUNTDOWN /\ countdownSeconds s = 0 /\
  trace (updateLCD (updateLCD s)) =
    DigitalWrite LED_PIN HIGH :: trace (updateLCD s).
Proof. vm_compute. repeat split; reflexivity. Qed.

(** ** The display cache against what was printed *)

Lemma shown_safePrintLine0 txt s :
  (String.length txt <= 16)%nat ->
  forallb fits (trace s) = true ->
  (last_written 0 (trace s) = Some (lastLine0 s) \/ lastLine0 s <> txt) ->
  forallb fits (trace (safePrintLine 0 txt s)) = true /\
  last_written 0 (trace (safePrintLine 0 txt s))
    = Some (lastLine0 (safePrintLine 0 txt s)) /\
  last_written 1 (trace (safePrintLine 0 txt s)) = last_written 1 (trace s) /\
  lastLine1 (safePrintLine 0 txt s) = lastLine1 s.
Proof.
  intros Hlen Hfit H. unfold safePrintLine. cbn [Z.eqb].
  destruct (String.eqb_spec (lastLine0 s) txt) as [E|E]; cbn.
  - destruct H as [H|H]; [auto|contradiction].
  - rewrite Hfit, strncpy16_fits by exact Hlen.
    apply Nat.leb_le in Hlen. rewrite Hlen. auto.
Qed.

Lemma shown_safePrintLine1 txt s :
  (String.length txt <= 16)%nat ->
  forallb fits (trace s) = true ->
  (last_written 1 (trace s) = Some (lastLine1 s) \/ lastLine1 s <> txt) ->
  forallb fits (trace (safePrintLine 1 txt s)) = true /\
  last_written 1 (trace (safePrintLine 1 txt s))
    = Some (lastLine1 (safePrintLine 1 txt s)) /\
  last_written 0 (trace (safePrintLine 1 txt s)) = last_written 0 (trace s) /\
  lastLine0 (safePrintLine 1 txt s) = lastLine0 s.
Proof.
  intros Hlen Hfit H. unfold safePrintLine. cbn [Z.eqb].
  destruct (String.eqb_spec (lastLine1 s) txt) as [E|E]; cbn.
  - destruct H as [H|H]; [auto|contradiction].
  - rewrite Hfit, strncpy16_fits by exact Hlen.
    apply Nat.leb_le in Hlen. rewrite Hlen. auto.
Qed.

Lemma shown_invalidate s :
  shown s ->
  forallb fits (trace (invalidate s)) = true /\
  (last_written 0 (trace (invalidate s)) = Some (lastLine0 (invalidate s))
   \/ lastLine0 (invalidate s) = "") /\
  (last_written 1 (trace (invalidate s)) = Some (lastLine1 (invalidate s))
   \/ lastLine1 (invalidate s) = "").
Proof.
  intros (Hf & H0 & H1). unfold invalidate.
  destruct (negb _); cbn; auto.
Qed.

Lemma shown_digitalWrite_LED level s : shown s -> shown (digitalWrite_LED level s).
Proof. intros (Hf & H0 & H1). repeat split; cbn; assumption. Qed.

Lemma shown_updateLCD s : shown s -> shown (updateLCD s).
Proof.
  intros H. rewrite updateLCD_render. cbn zeta.
  destruct (shown_invalidate s H) as (Hf & H0 & H1).
  set (s1 := invalidate s) in *.
  destruct (shown_safePrintLine0 (line0_text s) s1 (line0_text_fits s) Hf)
    as (Af & A0 & A1 & Ac).
  { destruct H0 as [H0|H0]; [left; exact H0|right].
    rewrite H0. intros E. symmetry in E. exact (line0_text_nonempty s E). }
  set (s2 := safePrintLine 0 (line0_text s) s1) in *.
  destruct (shown_safePrintLine1 (line1_text s) s2 (line1_text_fits s) Af)
    as (Bf & B1 & B0 & Bc).
  { rewrite A1, Ac. destruct H1 as [H1|H1]; [left; exact H1|right].
    rewrite H1. intros E. symmetry in E. exact (line1_text_nonempty s E). }
  assert (S3 : shown (safePrintLine 1 (line1_text s) s2)).
  { repeat split; [exact Bf| |exact B1]. rewrite B0, Bc. exact A0. }
  destruct (time_up s); [apply shown_digitalWrite_LED|]; exact S3.
Qed.

Ltac shown_frame H := first [exact H | apply shown_updateLCD; exact H].

Lemma shown_shortClickA s : shown s -> shown (shortClickA s).
Proof.
  intros H. unfold shortClickA. apply shown_updateLCD.
  destruct (negb _); exact H.
Qed.

Lemma shown_shortClickB s : shown s -> shown (shortClickB s).
Proof.
  intros H. unfold shortClickB. apply shown_updateLCD. cbn zeta.
  destruct (isCountdownRunning _); [exact H|].
  destruct (_ <=? 0); exact H.
Qed.

Lemma shown_resetEverything s : shown s -> shown (resetEverything s).
Proof.
  intros H. unfold resetEverything.
  apply shown_updateLCD, shown_digitalWrite_LED. exact H.
Qed.

Lemma shown_increaseCountdownSetting s :
  shown s -> shown (increaseCountdownSetting s).
Proof.
  intros H. unfold increaseCountdownSetting. apply shown_updateLCD. cbn zeta.
  destruct (_ >? COUNT_MAX); exact H.
Qed.

Lemma shown_tickSecond s : shown s -> shown (tickSecond s).
Proof.
  intros H. unfold tickSecond.
  set (s1 := if isStopwatchRunning s then _ else s).
  assert (H1 : shown s1).
  { subst s1. destruct (isStopwatchRunning s); [|exact H].
    destruct (mode_eqb _ STOPWATCH); shown_frame H. }
  clearbody s1. clear H s.
  destruct (isCountdownRunning s1); [|exact H1].
  destruct (countdownSeconds s1 >? 0); [|exact H1].
  set (s2 := set_countdownSeconds _ s1).
  assert (H2 : shown s2) by exact H1.
  clearbody s2.
  set (s3 := if mode_eqb (currentMode s2) COUNTDOWN then _ else s2).
  assert (H3 : shown s3)
    by (subst s3; destruct (mode_eqb (currentMode s2) COUNTDOWN);
        shown_frame H2).
  clearbody s3.
  destruct (countdownSeconds s3 =? 0); [|exact H3].
  apply shown_updateLCD. exact H3.
Qed.

Lemma shown_apply_event e s : shown s -> shown (apply_event e s).
Proof.
  destruct e; cbn [apply_event].
  - apply shown_shortClickA.
  - apply shown_resetEverything.
  - apply shown_shortClickB.
  - apply shown_increaseCountdownSetting.
  - apply shown_increaseCountdownSetting.
  - apply shown_tickSecond.
Qed.

Lemma shown_debounceA now rawA s : shown s -> shown (debounceA now rawA s).
Proof.
  intros H. unfold debounceA.
  set (s1 := if negb (Bool.eqb rawA (lastRawA s)) then _ else s).
  assert (H1 : shown s1)
    by (subst s1; destruct (negb (Bool.eqb rawA (lastRawA s))); exact H).
  clearbody s1.
  assert (G : forall x, shown x -> shown (set_lastRawA rawA x))
    by (intros x Hx; exact Hx).
  apply G.
  destruct (_ && _); [|exact H1].
  destruct (Bool.eqb _ LOW); [exact H1|].
  destruct (_ && _); [|exact H1].
  apply shown_shortClickA. exact H1.
Qed.

Lemma shown_debounceB now rawB s : shown s -> shown (debounceB now rawB s).
Proof.
  intros H. unfold debounceB.
  set (s1 := if negb (Bool.eqb rawB (lastRawB s)) then _ else s).
  assert (H1 : shown s1)
    by (subst s1; destruct (negb (Bool.eqb rawB (lastRawB s))); exact H).
  clearbody s1.
  assert (G : forall x, shown x -> shown (set_lastRawB rawB x))
    by (intros x Hx; exact Hx).
  apply G.
  destruct (_ && _); [|exact H1].
  destruct (Bool.eqb _ LOW); [exact H1|].
  destruct (_ && _); [|exact H1].
  apply shown_shortClickB. exact H1.
Qed.

Lemma shown_holdA now s : shown s -> shown (holdA now s).
Proof.
  intros H. unfold holdA. destruct (_ && _); [|exact H].
  apply shown_resetEverything, H.
Qed.

Lemma shown_holdB now s : shown s -> shown (holdB now s).
Proof.
  intros H. unfold holdB. destruct (_ && _); [|exact H].
  assert (G : forall x, shown x -> shown (set_longBengaged true x))
    by (intros x Hx; exact Hx).
  apply G. destruct (_ >=? HOLD_REPEAT_MS); [|exact H].
  assert (G' : forall x, shown x -> shown (set_lastHoldRepeatB now x))
    by (intros x Hx; exact Hx).
  apply G', shown_increaseCountdownSetting, H.
Qed.

Lemma shown_tick now s : shown s -> shown (tick now s).
Proof.
  intros H. unfold tick. destruct (_ >=? TICK_MS); [|exact H].
  apply shown_tickSecond. exact H.
Qed.

Lemma shown_ledBehavior now s : shown s -> shown (ledBehavior now s).
Proof.
  intros H. unfold ledBehavior, toggleLed.
  destruct (_ || _).
  - destruct (_ >=? LED_BLINK_MS); [|exact H].
    apply shown_digitalWrite_LED. exact H.
  - destruct (countdownFinished s).
    + destruct (_ >=? 700); [|exact H].
      apply shown_digitalWrite_LED. exact H.
    + assert (G : shown (digitalWrite_LED LOW s))
        by (apply shown_digitalWrite_LED, H).
      exact G.
Qed.

Lemma shown_loop m rawA rawB s : shown s -> shown (loop m rawA rawB s).
Proof.
  intros H. unfold loop. cbn zeta.
  apply shown_updateLCD, shown_ledBehavior, shown_tick, shown_holdB,
    shown_holdA, shown_debounceB, shown_debounceA, H.
Qed.

Lemma shown_booted : shown booted.
Proof. unfold shown. vm_compute. repeat split; reflexivity. Qed.

Lemma last_written_In row tr t :
  last_written row tr = Some t -> In (LcdPrint t) tr.
Proof.
  induction tr as [|o tr IH]; [discriminate|].
  destruct o; cbn [last_written]; intros H; try (right; exact (IH H)).
  destruct tr as [|o' tr'].
  - cbn in H. discriminate.
  - destruct o' as [| |col r| | |]; try (right; exact (IH H)).
    destruct (r =? row).
    + injection H as ->. left. reflexivity.
    + right. exact (IH H).
Qed.

Lemma shown_cache_fits s :
  shown s ->
  (String.length (lastLine0 s) <= 16)%nat /\
  (String.length (lastLine1 s) <= 16)%nat.
Proof.
  intros (Hf & H0 & H1). rewrite forallb_forall in Hf.
  split; apply Nat.leb_le.
  - exact (Hf _ (last_written_In _ _ _ H0)).
  - exact (Hf _ (last_written_In _ _ _ H1)).
Qed.

(** C10: in every reachable state every text that was printed on the
    display is at most 16 characters long, the cache of each row holds
    exactly the text last printed on that row, and so holds at most 16
    characters. *)
Theorem display_lines_fit s :
  reachable s ->
  forallb fits (trace s) = true /\
  last_written 0 (trace s) = Some (lastLine0 s) /\
  last_written 1 (trace s) = Some (lastLine1 s) /\
  (String.length (lastLine0 s) <= 16)%nat /\
  (String.length (lastLine1 s) <= 16)%nat.
Proof.
  intros Hr.
  assert (H : shown s).
  { induction Hr as [|s i _ IH|s e _ IH].
    - exact shown_booted.
    - apply shown_loop, IH.
    - apply shown_apply_event, IH. }
  destruct (shown_cache_fits s H) as (L0 & L1).
  destruct H as (Hf & H0 & H1). auto.
Qed.

Lemma display_lines_fit_witness :
  reachable c10_state /\
  forallb fits (trace c10_state) = true /\
  last_written 0 (trace c10_state) = Some (lastLine0 c10_state) /\
  last_written 1 (trace c10_state) = Some (lastLine1 c10_state) /\
  (String.length (lastLine0 c10_state) <= 16)%nat /\
  (String.length (lastLine1 c10_state) <= 16)%nat.
Proof.
  assert (Hr : reachable c10_state)
    by (apply reach_event, reach_loop, reach_boot).
  split; [exact Hr | exact (display_lines_fit c10_state Hr)].
Defined.

(** ** Clock offsets *)

Lemma u32_shift_now m k : u32 (u32 m + k) = u32 (m + k).
Proof. unfold u32. apply Z.add_mod_idemp_l. lia. Qed.

Lemma u32_diff_shift m f k :
  u32 (u32 (m + k) - u32 (f + k)) = u32 (u32 m - f).
Proof.
  unfold u32.
  rewrite Zminus_mod_idemp_l, Zminus_mod_idemp_r, Zminus_mod_idemp_l.
  f_equal. lia.
Qed.

(** Moving the timestamps commutes with every assignment; an assignment of
    the clock reading to a timestamp takes the moved reading. *)

Lemma shift_set_lastRawA k v s :
  set_lastRawA v (shift k s) = shift k (set_lastRawA v s).
Proof. reflexivity. Qed.

Lemma shift_set_lastRawB k v s :
  set_lastRawB v (shift k s) = shift k (set_lastRawB v s).
Proof. reflexivity. Qed.

Lemma shift_set_stableA k v s :
  set_stableA v (shift k s) = shift k (set_stableA v s).
Proof. reflexivity. Qed.

Lemma shift_set_stableB k v s :
  set_stableB v (shift k s) = shift k (set_stableB v s).
Proof. reflexivity. Qed.

Lemma shift_set_longAengaged k v s :
  set_longAengaged v (shift k s) = shift k (set_longAengaged v s).
Proof. reflexivity. Qed.

Lemma shift_set_longBengaged k v s :
  set_longBengaged v (shift k s) = shift k (set_longBengaged v s).
Proof. reflexivity. Qed.

Lemma shift_set_ledState k v s :
  set_ledState v (shift k s) = shift k (set_ledState v s).
Proof. reflexivity. Qed.

Lemma shift_digitalWrite_LED k v s :
  digitalWrite_LED v (shift k s) = shift k (digitalWrite_LED v s).
Proof. reflexivity. Qed.

Lemma shift_set_lastDebounceTimeA k m s :
  set_lastDebounceTimeA (u32 (m + k)) (shift k s)
  = shift k (set_lastDebounceTimeA (u32 m) s).
Proof.
  unfold shift, set_lastDebounceTimeA. cbn [lastDebounceTimeA].
  rewrite u32_shift_now. reflexivity.
Qed.

Lemma shift_set_lastDebounceTimeB k m s :
  set_lastDebounceTimeB (u32 (m + k)) (shift k s)
  = shift k (set_lastDebounceTimeB (u32 m) s).
Proof.
  unfold shift, set_lastDebounceTimeB. cbn [lastDebounceTimeB].
  rewrite u32_shift_now. reflexivity.
Qed.

Lemma shift_set_pressStartA k m s :
  set_pressStartA (u32 (m + k)) (shift k s)
  = shift k (set_pressStartA (u32 m) s).
Proof.
  unfold shift, set_pressStartA. cbn [pressStartA].
  rewrite u32_shift_now. reflexivity.
Qed.

Lemma shift_set_pressStartB k m s :
  set_pressStartB (u32 (m + k)) (shift k s)
  = shift k (set_pressStartB (u32 m) s).
Proof.
  unfold shift, set_pressStartB. cbn [pressStartB].
  rewrite u32_shift_now. reflexivity.
Qed.

Lemma shift_set_lastHoldRepeatB k m s :
  set_lastHoldRepeatB (u32 (m + k)) (shift k s)
  = shift k (set_lastHoldRepeatB (u32 m) s).
Proof.
  unfold shift, set_lastHoldRepeatB. cbn [lastHoldRepeatB].
  rewrite u32_shift_now. reflexivity.
Qed.

Lemma shift_set_lastTick k m s :
  set_lastTick (u32 (m + k)) (shift k s) = shift k (set_lastTick (u32 m) s).
Proof.
  unfold shift, set_lastTick. cbn [lastTick].
  rewrite u32_shift_now. reflexivity.
Qed.

Lemma shift_set_lastLedToggle k m s :
  set_lastLedToggle (u32 (m + k)) (shift k s)
  = shift k (set_lastLedToggle (u32 m) s).
Proof.
  unfold shift, set_lastLedToggle. cbn [lastLedToggle].
  rewrite u32_shift_now. reflexivity.
Qed.

Lemma shift_safePrintLine k row txt s :
  safePrintLine row txt (shift k s) = shift k (safePrintLine row txt s).
Proof.
  unfold safePrintLine.
  change (lastLine0 (shift k s)) with (lastLine0 s).
  change (lastLine1 (shift k s)) with (lastLine1 s).
  destruct (negb _); [|reflexivity].
  destruct (row =? 0); reflexivity.
Qed.

Lemma shift_invalidate k s : invalidate (shift k s) = shift k (invalidate s).
Proof.
  unfold invalidate.
  change (currentMode (shift k s)) with (currentMode s).
  change (lastShownMode (shift k s)) with (lastShownMode s).
  destruct (negb _); reflexivity.
Qed.

Lemma shift_updateLCD k s : updateLCD (shift k s) = shift k (updateLCD s).
Proof.
  rewrite !updateLCD_render. cbn zeta.
  change (line0_text (shift k s)) with (line0_text s).
  change (line1_text (shift k s)) with (line1_text s).
  change (time_up (shift k s)) with (time_up s).
  rewrite shift_invalidate, !shift_safePrintLine.
  destruct (time_up s); reflexivity.
Qed.

Lemma shift_shortClickA k s : shortClickA (shift k s) = shift k (shortClickA s).
Proof.
  unfold shortClickA. rewrite <- shift_updateLCD. f_equal.
  change (currentMode (shift k s)) with (currentMode s).
  destruct (negb _); reflexivity.
Qed.

Lemma shift_shortClickB k s : shortClickB (shift k s) = shift k (shortClickB s).
Proof.
  unfold shortClickB. rewrite <- shift_updateLCD. f_equal. cbn zeta.
  cbn [isCountdownRunning countdownSeconds set_currentMode
       set_isStopwatchRunning set_countdownFinished shift
       initialCountdownSetting].
  destruct (isCountdownRunning s); [reflexivity|].
  destruct (countdownSeconds s <=? 0); reflexivity.
Qed.

Lemma shift_resetEverything k s :
  resetEverything (shift k s) = shift k (resetEverything s).
Proof. unfold resetEverything. rewrite <- shift_updateLCD. reflexivity. Qed.

Lemma shift_increaseCountdownSetting k s :
  increaseCountdownSetting (shift k s) = shift k (increaseCountdownSetting s).
Proof.
  unfold increaseCountdownSetting. rewrite <- shift_updateLCD. f_equal.
  cbn zeta. cbn [initialCountdownSetting set_initialCountdownSetting shift].
  destruct (_ >? COUNT_MAX); reflexivity.
Qed.

Lemma shift_tickSecond k s : tickSecond (shift k s) = shift k (tickSecond s).
Proof.
  unfold tickSecond.
  change (isStopwatchRunning (shift k s)) with (isStopwatchRunning s).
  set (s1 := if isStopwatchRunning s then _ else s).
  match goal with
  | |- context [if isStopwatchRunning s then ?a else shift k s] =>
      assert (E1 : (if isStopwatchRunning s then a else shift k s) = shift k s1)
  end.
  { subst s1. destruct (isStopwatchRunning s); [|reflexivity].
    cbn zeta. change (stopwatchSeconds (shift k s)) with (stopwatchSeconds s).
    cbn [currentMode set_stopwatchSeconds shift].
    destruct (mode_eqb (currentMode s) STOPWATCH); [|reflexivity].
    rewrite <- shift_updateLCD. reflexivity. }
  rewrite E1. clearbody s1. clear E1.
  change (isCountdownRunning (shift k s1)) with (isCountdownRunning s1).
  change (countdownSeconds (shift k s1)) with (countdownSeconds s1).
  destruct (isCountdownRunning s1); [|reflexivity].
  destruct (countdownSeconds s1 >? 0); [|reflexivity].
  cbn zeta.
  set (s2 := set_countdownSeconds (wrap_int (countdownSeconds s1 - 1)) s1).
  change (set_countdownSeconds (wrap_int (countdownSeconds s1 - 1)) (shift k s1))
    with (shift k s2).
  change (currentMode (shift k s2)) with (currentMode s2).
  set (s3 := if mode_eqb (currentMode s2) COUNTDOWN then updateLCD s2 else s2).
  assert (E3 : (if mode_eqb (currentMode s2) COUNTDOWN
                then updateLCD (shift k s2) else shift k s2) = shift k s3)
    by (subst s3; destruct (mode_eqb (currentMode s2) COUNTDOWN);
        [apply shift_updateLCD|reflexivity]).
  rewrite E3. clearbody s3.
  change (countdownSeconds (shift k s3)) with (countdownSeconds s3).
  destruct (countdownSeconds s3 =? 0); [|reflexivity].
  rewrite <- shift_updateLCD. reflexivity.
Qed.

Lemma shift_debounceA k m rawA s :
  debounceA (u32 (m + k)) rawA (shift k s)
  = shift k (debounceA (u32 m) rawA s).
Proof.
  unfold debounceA.
  change (lastRawA (shift k s)) with (lastRawA s).
  set (s1 := if negb (Bool.eqb rawA (lastRawA s))
             then set_lastDebounceTimeA (u32 m) s else s).
  assert (E1 : (if negb (Bool.eqb rawA (lastRawA s))
                then set_lastDebounceTimeA (u32 (m + k)) (shift k s)
                else shift k s) = shift k s1).
  { subst s1. destruct (negb (Bool.eqb rawA (lastRawA s))); [|reflexivity].
    apply shift_set_lastDebounceTimeA. }
  cbn zeta. rewrite E1. clearbody s1. clear E1.
  change (lastDebounceTimeA (shift k s1)) with (u32 (lastDebounceTimeA s1 + k)).
  rewrite u32_diff_shift.
  change (stableA (shift k s1)) with (stableA s1).
  rewrite <- shift_set_lastRawA.
  destruct (_ && _); [|reflexivity].
  f_equal.
  change (stableA (set_stableA rawA (shift k s1))) with rawA.
  change (stableA (set_stableA rawA s1)) with rawA.
  rewrite shift_set_stableA.
  destruct (Bool.eqb rawA LOW).
  - rewrite shift_set_pressStartA, shift_set_longAengaged. reflexivity.
  - change (longAengaged (shift k (set_stableA rawA s1)))
      with (longAengaged (set_stableA rawA s1)).
    change (pressStartA (shift k (set_stableA rawA s1)))
      with (u32 (pressStartA (set_stableA rawA s1) + k)).
    rewrite u32_diff_shift.
    destruct (_ && _); [apply shift_shortClickA|reflexivity].
Qed.

Lemma shift_debounceB k m rawB s :
  debounceB (u32 (m + k)) rawB (shift k s)
  = shift k (debounceB (u32 m) rawB s).
Proof.
  unfold debounceB.
  change (lastRawB (shift k s)) with (lastRawB s).
  set (s1 := if negb (Bool.eqb rawB (lastRawB s))
             then set_lastDebounceTimeB (u32 m) s else s).
  assert (E1 : (if negb (Bool.eqb rawB (lastRawB s))
                then set_lastDebounceTimeB (u32 (m + k)) (shift k s)
                else shift k s) = shift k s1).
  { subst s1. destruct (negb (Bool.eqb rawB (lastRawB s))); [|reflexivity].
    apply shift_set_lastDebounceTimeB. }
  cbn zeta. rewrite E1. clearbody s1. clear E1.
  change (lastDebounceTimeB (shift k s1)) with (u32 (lastDebounceTimeB s1 + k)).
  rewrite u32_diff_shift.
  change (stableB (shift k s1)) with (stableB s1).
  rewrite <- shift_set_lastRawB.
  destruct (_ && _); [|reflexivity].
  f_equal.
  change (stableB (set_stableB rawB (shift k s1))) with rawB.
  change (stableB (set_stableB rawB s1)) with rawB.
  rewrite shift_set_stableB.
  destruct (Bool.eqb rawB LOW).
  - rewrite shift_set_pressStartB, shift_set_longBengaged,
      shift_set_lastHoldRepeatB. reflexivity.
  - change (longBengaged (shift k (set_stableB rawB s1)))
      with (longBengaged (set_stableB rawB s1)).
    change (pressStartB (shift k (set_stableB rawB s1)))
      with (u32 (pressStartB (set_stableB rawB s1) + k)).
    rewrite u32_diff_shift.
    destruct (_ && _); [apply shift_shortClickB|reflexivity].
Qed.

Lemma shift_holdA k m s :
  holdA (u32 (m + k)) (shift k s) = shift k (holdA (u32 m) s).
Proof.
  unfold holdA.
  change (stableA (shift k s)) with (stableA s).
  change (longAengaged (shift k s)) with (longAengaged s).
  change (pressStartA (shift k s)) with (u32 (pressStartA s + k)).
  rewrite u32_diff_shift.
  destruct (_ && _); [apply shift_resetEverything|reflexivity].
Qed.

Lemma shift_holdB k m s :
  holdB (u32 (m + k)) (shift k s) = shift k (holdB (u32 m) s).
Proof.
  unfold holdB.
  change (stableB (shift k s)) with (stableB s).
  change (pressStartB (shift k s)) with (u32 (pressStartB s + k)).
  change (lastHoldRepeatB (shift k s)) with (u32 (lastHoldRepeatB s + k)).
  rewrite !u32_diff_shift.
  destruct (_ && _); [|reflexivity].
  cbn zeta. rewrite <- shift_set_longBengaged. f_equal.
  destruct (_ >=? HOLD_REPEAT_MS); [|reflexivity].
  rewrite shift_increaseCountdownSetting. apply shift_set_lastHoldRepeatB.
Qed.

Lemma shift_tick k m s :
  tick (u32 (m + k)) (shift k s) = shift k (tick (u32 m) s).
Proof.
  unfold tick.
  change (lastTick (shift k s)) with (u32 (lastTick s + k)).
  rewrite u32_diff_shift.
  destruct (_ >=? TICK_MS); [|reflexivity].
  cbn zeta. rewrite shift_set_lastTick. apply shift_tickSecond.
Qed.

Lemma shift_toggleLed k m s :
  toggleLed (u32 (m + k)) (shift k s) = shift k (toggleLed (u32 m) s).
Proof.
  unfold toggleLed. cbn zeta.
  rewrite shift_set_lastLedToggle.
  change (ledState (shift k (set_lastLedToggle (u32 m) s)))
    with (ledState (set_lastLedToggle (u32 m) s)).
  rewrite shift_set_ledState.
  change (ledState (shift k (set_ledState
            (negb (ledState (set_lastLedToggle (u32 m) s)))
            (set_lastLedToggle (u32 m) s))))
    with (ledState (set_ledState
            (negb (ledState (set_lastLedToggle (u32 m) s)))
            (set_lastLedToggle (u32 m) s))).
  apply shift_digitalWrite_LED.
Qed.

Lemma shift_ledBehavior k m s :
  ledBehavior (u32 (m + k)) (shift k s) = shift k (ledBehavior (u32 m) s).
Proof.
  unfold ledBehavior.
  change (isStopwatchRunning (shift k s)) with (isStopwatchRunning s).
  change (isCountdownRunning (shift k s)) with (isCountdownRunning s).
  change (countdownFinished (shift k s)) with (countdownFinished s).
  change (lastLedToggle (shift k s)) with (u32 (lastLedToggle s + k)).
  rewrite !u32_diff_shift.
  destruct (_ || _).
  - destruct (_ >=? LED_BLINK_MS); [apply shift_toggleLed|reflexivity].
  - destruct (countdownFinished s); [|reflexivity].
    destruct (_ >=? 700); [apply shift_toggleLed|reflexivity].
Qed.

Lemma shift_loop k m rawA rawB s :
  loop (m + k) rawA rawB (shift k s) = shift k (loop m rawA rawB s).
Proof.
  unfold loop. cbn zeta.
  rewrite shift_debounceA, shift_debounceB, shift_holdA, shift_holdB,
    shift_tick, shift_ledBehavior, shift_updateLCD.
  reflexivity.
Qed.

Lemma shift_step k s i : step (shift k s) (delay k i) = shift k (step s i).
Proof. unfold step, delay. cbn [millis pinA pinB]. apply shift_loop. Qed.

Lemma shift_run k inputs s :
  run (map (delay k) inputs) (shift k s) = shift k (run inputs s).
Proof.
  unfold run. revert s.
  induction inputs as [|i inputs IH]; intros s; [reflexivity|].
  cbn [map fold_left]. rewrite shift_step. apply IH.
Qed.

(** C9: every time comparison of [loop] is made on the 32-bit difference
    between the clock and a recorded timestamp, so moving the clock and all
    recorded timestamps by the same amount changes nothing that can be
    observed: the run from the moved state on the moved clock ends in the
    moved end state, with the same timer variables, the same LED level and
    the same calls to the display and the LED. *)
Theorem clock_offset_invariance k inputs s :
  run (map (delay k) inputs) (shift k s) = shift k (run inputs s) /\
  timers (run (map (delay k) inputs) (shift k s)) = timers (run inputs s) /\
  ledPin (run (map (delay k) inputs) (shift k s)) = ledPin (run inputs s) /\
  trace (run (map (delay k) inputs) (shift k s)) = trace (run inputs s).
Proof. rewrite shift_run. repeat split. Qed.

(** The click of A that starts the stopwatch, played 100 ms before the clock
    wraps: the press is accepted before the wrap and the release after it. *)
Example click_across_wraparound :
  let k := 2 ^ 32 - 100 in
  let s := run (map (delay k) (samples c2_levelA released 27)) (shift k booted) in
  pressStartA s = u32 (70 + k) /\ pressStartA s = 4294967266 /\
  lastDebounceTimeA s = 100 /\
  currentMode s = STOPWATCH /\ isStopwatchRunning s = true.
Proof. vm_compute. repeat split; reflexivity. Qed.

(** ** Scenarios *)

(** From Idle with a duration of 10, a short press of B starts the countdown
    at 10; ten ticks later it has expired, the second row shows the time-up
    text and the LED pin is high. *)
Example scenario_countdown :
  (let s := apply_event ShortPressB booted in
   currentMode s = COUNTDOWN /\ countdownSeconds s = 10 /\
   isCountdownRunning s = true /\ lastLine1 s = "     00:10") /\
  (let s := apply_events (ShortPressB :: repeat Tick 10) booted in
   countdownSeconds s = 0 /\ isCountdownRunning s = false /\
   countdownFinished s = true /\ lastLine1 s = "   TIME UP!     " /\
   ledPin s = HIGH).
Proof. vm_compute. repeat split; reflexivity. Qed.

(** In Stopwatch mode with 5 seconds elapsed, a short press of A pauses the
    stopwatch and keeps the 5 seconds. *)
Example scenario_pause :
  let s := apply_events (ShortPressA :: repeat Tick 5) booted in
  (currentMode s = STOPWATCH /\ stopwatchSeconds s = 5 /\
   isStopwatchRunning s = true) /\
  (isStopwatchRunning (apply_event ShortPressA s) = false /\
   stopwatchSeconds (apply_event ShortPressA s) = 5).
Proof. vm_compute. repeat split; reflexivity. Qed.

(** A long press of A resets everything. *)
Example scenario_reset :
  let s := apply_events (ShortPressA :: repeat Tick 42 ++ [LongPressStartA])
             booted in
  timers s = (IDLE, 0, false, 10, 0, false, false).
Proof. vm_compute. reflexivity. Qed.

(** At a duration of 300 one more hold-repeat of B wraps to 10 and the idle
    screen shows it; at 300 the row had no room left for the unit. *)
Example scenario_wrap :
  let s := apply_events (repeat HoldRepeatB 29) booted in
  (initialCountdownSetting s = 300 /\ lastLine1 s = "B : CD For : 300") /\
  (initialCountdownSetting (apply_event HoldRepeatB s) = 10 /\
   currentMode (apply_event HoldRepeatB s) = IDLE /\
   lastLine1 (apply_event HoldRepeatB s) = "B : CD For : 10s").
Proof. vm_compute. repeat split; reflexivity. Qed.

(** ** More on the text of the two rows *)

Lemma all_from_spec f n lo :
  all_from lo n f = true ->
  forall z, lo <= z < lo + Z.of_nat n -> f z = true.
Proof.
  revert lo. induction n as [|n IH]; intros lo H z Hz; [lia|].
  cbn [all_from] in H. apply andb_prop in H. destruct H as [H0 H1].
  destruct (Z.eq_dec z lo) as [->|Hne]; [exact H0|].
  apply (IH (lo + 1) H1). lia.
Qed.

Lemma length_string_app a b :
  String.length (a ++ b)%string = (String.length a + String.length b)%nat.
Proof. induction a as [|c a IH]; cbn; [reflexivity|]. now rewrite IH. Qed.

(** X1: whatever value an [int] holds, [formatTime] writes at most 8
    characters, so the 17-byte [buf] holds the text, and the row built from
    it is not cut by [snprintf]. *)
Theorem formatTime_fits v :
  INT_MIN <= v <= INT_MAX ->
  (String.length (formatTime v) <= 8)%nat /\
  snprintf 17 ("     " ++ formatTime v)%string = ("     " ++ formatTime v)%string.
Proof.
  intros Hv.
  assert (L : (String.length (formatTime v) <=? 8)%nat = true).
  { apply (all_from_spec (fun v => (String.length (formatTime v) <=? 8)%nat)
             (Z.to_nat 65536) INT_MIN); [vm_compute; reflexivity|].
    unfold INT_MIN, INT_MAX in *. lia. }
  apply Nat.leb_le in L. split; [exact L|].
  unfold snprintf. apply substring_0_all.
  rewrite length_string_app. cbn [String.length]. lia.
Qed.

Lemma formatTime_fits_witness :
  INT_MIN <= -32759 <= INT_MAX /\
  (String.length (formatTime (-32759)) <= 8)%nat /\
  snprintf 17 ("     " ++ formatTime (-32759))%string
  = ("     " ++ formatTime (-32759))%string.
Proof.
  assert (H : INT_MIN <= -32759 <= INT_MAX) by (unfold INT_MIN, INT_MAX; lia).
  split; [exact H | exact (formatTime_fits (-32759) H)].
Defined.

(** X2: below 100 minutes [formatTime] gives two digits of minutes, a colon
    and two digits of seconds; from 100 minutes up to the largest [int] the
    minutes take three digits and the text is six characters long. *)
Theorem formatTime_shape t :
  0 <= t <= INT_MAX ->
  (t < 6000 ->
   formatTime t =
   String (digit_char (t / 600))
     (String (digit_char (t / 60 mod 10))
        (String ":"
           (String (digit_char (t mod 60 / 10))
              (String (digit_char (t mod 10)) ""))))) /\
  (6000 <= t -> String.length (formatTime t) = 6%nat).
Proof.
  intros Ht. split; intros H.
  - apply String.eqb_eq.
    apply (all_from_spec
             (fun t => String.eqb (formatTime t)
                (String (digit_char (t / 600))
                   (String (digit_char (t / 60 mod 10))
                      (String ":"
                         (String (digit_char (t mod 60 / 10))
                            (String (digit_char (t mod 10)) ""))))))
             (Z.to_nat 6000) 0); [vm_compute; reflexivity|lia].
  - apply Nat.eqb_eq.
    apply (all_from_spec
             (fun t => (String.length (formatTime t) =? 6)%nat)
             (Z.to_nat 26768) 6000); [vm_compute; reflexivity|].
    unfold INT_MAX in Ht. lia.
Qed.

Lemma formatTime_shape_witness :
  0 <= 75 <= INT_MAX /\ 75 < 6000 /\ formatTime 75 = "01:15" /\
  0 <= 6000 <= INT_MAX /\ 6000 <= 6000 /\
  String.length (formatTime 6000) = 6%nat.
Proof.
  assert (H : 0 <= 75 <= INT_MAX) by (unfold INT_MAX; lia).
  assert (K : 0 <= 6000 <= INT_MAX) by (unfold INT_MAX; lia).
  split; [exact H|]. split; [lia|].
  split; [exact (proj1 (formatTime_shape 75 H) ltac:(lia))|].
  split; [exact K|]. split; [lia|].
  exact (proj2 (formatTime_shape 6000 K) ltac:(lia)).
Defined.

Lemma read_time_formatTime t :
  0 <= t <= INT_MAX -> read_time (formatTime t) = t.
Proof.
  intros Ht. apply Z.eqb_eq.
  apply (all_from_spec (fun t => read_time (formatTime t) =? t)
           (Z.to_nat 32768) 0); [vm_compute; reflexivity|].
  unfold INT_MAX in Ht. lia.
Qed.

(** X3: two different non-negative [int] values never give the same time
    text. *)
Theorem formatTime_injective a b :
  0 <= a <= INT_MAX -> 0 <= b <= INT_MAX ->
  a <> b -> formatTime a <> formatTime b.
Proof.
  intros Ha Hb Hne H. apply Hne.
  rewrite <- (read_time_formatTime a Ha), <- (read_time_formatTime b Hb), H.
  reflexivity.
Qed.

Lemma formatTime_injective_witness :
  0 <= 59 <= INT_MAX /\ 0 <= 60 <= INT_MAX /\ 59 <> 60 /\
  formatTime 59 <> formatTime 60.
Proof.
  assert (Ha : 0 <= 59 <= INT_MAX) by (unfold INT_MAX; lia).
  assert (Hb : 0 <= 60 <= INT_MAX) by (unfold INT_MAX; lia).
  assert (Hne : 59 <> 60) by lia.
  split; [exact Ha|]. split; [exact Hb|]. split; [exact Hne|].
  exact (formatTime_injective 59 60 Ha Hb Hne).
Defined.

(** X4: on the idle screen the second row carries the configured duration
    with its unit up to 99 seconds; from 100 seconds on the text is one
    character too long for [snprintf] and the unit is cut off. *)
Theorem idle_row_text s :
  currentMode s = IDLE ->
  COUNT_MIN <= initialCountdownSetting s <= COUNT_MAX ->
  lastLine1 (updateLCD s) =
  if initialCountdownSetting s <? 100
  then ("B : CD For : " ++ fmt_d (initialCountdownSetting s) ++ "s")%string
  else ("B : CD For : " ++ fmt_d (initialCountdownSetting s))%string.
Proof.
  intros Hm Hd.
  destruct (updateLCD_rendered s) as (_ & _ & ->).
  destruct (line_texts_timers _ _ (timers_updateLCD s)) as (_ & -> & _).
  unfold line1_text. rewrite Hm.
  apply String.eqb_eq.
  apply (all_from_spec
           (fun d => String.eqb
              (snprintf 17 ("B : CD For : " ++ fmt_d d ++ "s")%string)
              (if d <? 100 then ("B : CD For : " ++ fmt_d d ++ "s")%string
               else ("B : CD For : " ++ fmt_d d)%string))
           (Z.to_nat 291) 10); [vm_compute; reflexivity|].
  unfold COUNT_MIN, COUNT_MAX in Hd. lia.
Qed.

Lemma idle_row_text_witness :
  currentMode c10_state = IDLE /\
  COUNT_MIN <= initialCountdownSetting c10_state <= COUNT_MAX /\
  lastLine1 (updateLCD c10_state) =
  if initialCountdownSetting c10_state <? 100
  then ("B : CD For : " ++ fmt_d (initialCountdownSetting c10_state) ++ "s")%string
  else ("B : CD For : " ++ fmt_d (initialCountdownSetting c10_state))%string.
Proof.
  assert (Hm : currentMode c10_state = IDLE) by (vm_compute; reflexivity).
  assert (Hd : COUNT_MIN <= initialCountdownSetting c10_state <= COUNT_MAX)
    by (vm_compute; split; discriminate).
  split; [exact Hm|]. split; [exact Hd|]. exact (idle_row_text c10_state Hm Hd).
Defined.

(** ** More invariants of the timer variables *)

Lemma timers_settled_event e t :
  timers_ok t -> timers_settled t -> timers_settled (timer_event e t).
Proof.
  split_timers t. unfold timers_ok, timers_settled, COUNT_MIN, COUNT_MAX.
  intros (Hd & Hc & Hs & Hk & Hx) (Hf & Hr & Hm).
  assert (Wc : wrap_int (cd - 1) = cd - 1)
    by (apply wrap_int_small; unfold INT_MIN, INT_MAX; lia).
  destruct e; unfold timer_event; rewrite ?Wc;
    destruct m, swr, cdr, fin; cbn; case_cmp; cbn;
    intuition (try congruence; try lia).
Qed.

Lemma timers_settled_events es t :
  timers_ok t -> timers_settled t -> timers_settled (timer_events es t).
Proof.
  revert t. induction es as [|e es IH]; intros t Hok H; [exact H|].
  cbn. apply IH; [apply timers_ok_event, Hok|apply timers_settled_event; assumption].
Qed.

Lemma reachable_timers_settled s : reachable s -> timers_settled (timers s).
Proof.
  induction 1 as [|s i Hr IH|s e Hr IH].
  - unfold booted, setup. rewrite timers_updateLCD. cbn.
    repeat split; intros; try discriminate.
  - unfold step.
    destruct (timers_loop (millis i) (pinA i) (pinB i) s)
      as (a & b & c & d & e & ->).
    apply timers_settled_events; [apply reachable_timers_ok, Hr|exact IH].
  - rewrite timers_apply_event.
    apply timers_settled_event; [apply reachable_timers_ok, Hr|exact IH].
Qed.

(** X5: in every reachable state the finished flag means that the countdown
    has run out: neither timer is running, no seconds remain, and the mode
    is not Stopwatch. *)
Theorem finished_means_expired s :
  reachable s -> countdownFinished s = true ->
  isStopwatchRunning s = false /\ isCountdownRunning s = false /\
  countdownSeconds s = 0 /\ currentMode s <> STOPWATCH.
Proof.
  intros Hr Hf. destruct (reachable_timers_settled s Hr) as (H & _).
  exact (H Hf).
Qed.

Lemma finished_means_expired_witness :
  reachable c5_state /\ countdownFinished c5_state = true /\
  isStopwatchRunning c5_state = false /\ isCountdownRunning c5_state = false /\
  countdownSeconds c5_state = 0 /\ currentMode c5_state <> STOPWATCH.
Proof.
  assert (Hr : reachable c5_state).
  { unfold c5_state, apply_events. cbn [repeat fold_left].
    repeat apply reach_event. exact reach_boot. }
  assert (Hf : countdownFinished c5_state = true) by (vm_compute; reflexivity).
  split; [exact Hr|]. split; [exact Hf|].
  exact (finished_means_expired c5_state Hr Hf).
Defined.

(** X6: in every reachable state a running countdown has seconds left, so
    the tick never finds a running countdown at zero; and the Countdown
    screen is in its time-up branch only with the finished flag set. *)
Theorem countdown_at_zero s :
  reachable s ->
  (isCountdownRunning s = true -> 0 < countdownSeconds s) /\
  (time_up s = true -> countdownFinished s = true).
Proof.
  intros Hr.
  destruct (reachable_timers_settled s Hr) as (_ & Hrun & Hm).
  destruct (reachable_fields_ok s Hr) as (_ & Hc & _).
  split; [exact Hrun|].
  unfold time_up. intros H. apply andb_prop in H. destruct H as [Hmode Hz].
  assert (E : currentMode s = COUNTDOWN)
    by (destruct (currentMode s); try discriminate Hmode; reflexivity).
  apply negb_true_iff in Hz.
  destruct (Hm E) as [Hpos|Hfin]; [|exact Hfin].
  destruct (Z.gtb_spec (countdownSeconds s) 0); [discriminate|lia].
Qed.

Lemma countdown_at_zero_witness :
  reachable c5_state /\ time_up c5_state = true /\
  (isCountdownRunning c5_state = true -> 0 < countdownSeconds c5_state) /\
  countdownFinished c5_state = true.
Proof.
  assert (Hr : reachable c5_state).
  { unfold c5_state, apply_events. cbn [repeat fold_left].
    repeat apply reach_event. exact reach_boot. }
  assert (Hu : time_up c5_state = true) by (vm_compute; reflexivity).
  split; [exact Hr|]. split; [exact Hu|].
  split.
  - exact (proj1 (countdown_at_zero c5_state Hr)).
  - exact (proj2 (countdown_at_zero c5_state Hr) Hu).
Defined.

(** ** The LED when nothing runs *)

Lemma ledPin_safePrintLine row txt s : ledPin (safePrintLine row txt s) = ledPin s.
Proof.
  unfold safePrintLine. destruct (negb _); [destruct (row =? 0)|]; reflexivity.
Qed.

Lemma ledPin_invalidate s : ledPin (invalidate s) = ledPin s.
Proof. unfold invalidate. destruct (negb _); reflexivity. Qed.

Lemma ledPin_updateLCD s : time_up s = false -> ledPin (updateLCD s) = ledPin s.
Proof.
  intros H. rewrite updateLCD_render. cbn zeta. rewrite H.
  now rewrite !ledPin_safePrintLine, ledPin_invalidate.
Qed.

Lemma ledState_blind : display_blind ledState.
Proof. repeat split. Qed.

(** X7: at the end of every pass of [loop] from a reachable state, if
    neither timer is running and the finished flag is clear, the LED pin is
    low and the blink phase is reset to low. *)
Theorem idle_led_off s i :
  reachable s ->
  isStopwatchRunning (step s i) = false ->
  isCountdownRunning (step s i) = false ->
  countdownFinished (step s i) = false ->
  ledPin (step s i) = LOW /\ ledState (step s i) = LOW.
Proof.
  intros Hr.
  assert (Hup : time_up (step s i) = true -> countdownFinished (step s i) = true)
    by (apply countdown_at_zero, reach_loop, Hr).
  revert Hup. unfold step, loop. cbn zeta.
  set (s5 := tick _ _).
  set (now := u32 (millis i)).
  rewrite time_up_updateLCD.
  destruct (timers_fields _ _ (timers_updateLCD (ledBehavior now s5)))
    as (_ & _ & -> & _ & _ & -> & ->).
  destruct (line_texts_timers _ _ (timers_ledBehavior now s5)) as (_ & _ & ->).
  destruct (timers_fields _ _ (timers_ledBehavior now s5))
    as (_ & _ & -> & _ & _ & -> & ->).
  intros Hup Hs Hc Hf.
  assert (Hu : time_up s5 = false)
    by (destruct (time_up s5); [rewrite Hup in Hf by reflexivity; discriminate
                               |reflexivity]).
  assert (E : ledBehavior now s5 = set_ledState LOW (digitalWrite_LED LOW s5))
    by (unfold ledBehavior; rewrite Hs, Hc, Hf; reflexivity).
  rewrite (frame_updateLCD ledState) by exact ledState_blind.
  rewrite ledPin_updateLCD
    by (destruct (line_texts_timers _ _ (timers_ledBehavior now s5))
          as (_ & _ & ->); exact Hu).
  rewrite E. split; reflexivity.
Qed.

Lemma idle_led_off_witness :
  reachable booted /\
  isStopwatchRunning (step booted (mkInput 5 LOW HIGH)) = false /\
  isCountdownRunning (step booted (mkInput 5 LOW HIGH)) = false /\
  countdownFinished (step booted (mkInput 5 LOW HIGH)) = false /\
  ledPin (step booted (mkInput 5 LOW HIGH)) = LOW /\
  ledState (step booted (mkInput 5 LOW HIGH)) = LOW.
Proof.
  assert (H1 : isStopwatchRunning (step booted (mkInput 5 LOW HIGH)) = false)
    by (vm_compute; reflexivity).
  assert (H2 : isCountdownRunning (step booted (mkInput 5 LOW HIGH)) = false)
    by (vm_compute; reflexivity).
  assert (H3 : countdownFinished (step booted (mkInput 5 LOW HIGH)) = false)
    by (vm_compute; reflexivity).
  split; [exact reach_boot|]. split; [exact H1|]. split; [exact H2|].
  split; [exact H3|].
  exact (idle_led_off booted (mkInput 5 LOW HIGH) reach_boot H1 H2 H3).
Defined.

(** ** Ticks and clicks in sequence *)

Lemma timer_events_cons e es t :
  timer_events (e :: es) t = timer_events es (timer_event e t).
Proof. reflexivity. Qed.

Lemma tick_countdown_running m sw swr d cd fin :
  0 < cd <= INT_MAX ->
  exists sw',
    timer_event Tick (m, sw, swr, d, cd, true, fin) =
    (m, sw', swr, d, cd - 1, negb (cd - 1 =? 0),
     if cd - 1 =? 0 then true else fin).
Proof.
  intros Hcd.
  assert (W : wrap_int (cd - 1) = cd - 1)
    by (apply wrap_int_small; unfold INT_MIN, INT_MAX in *; lia).
  unfold timer_event. rewrite W. cbn [andb].
  destruct (Z.gtb_spec cd 0); [|lia].
  destruct (cd - 1 =? 0); eexists; reflexivity.
Qed.

Lemma tick_stopwatch_running m sw d cd cdr fin :
  INT_MIN <= sw < INT_MAX ->
  exists cd' cdr' fin',
    timer_event Tick (m, sw, true, d, cd, cdr, fin) =
    (m, sw + 1, true, d, cd', cdr', fin').
Proof.
  intros Hsw.
  assert (W : wrap_int (sw + 1) = sw + 1)
    by (apply wrap_int_small; unfold INT_MIN, INT_MAX in *; lia).
  unfold timer_event. rewrite W.
  destruct (cdr && (cd >? 0)); [destruct (wrap_int (cd - 1) =? 0)|];
    do 3 eexists; reflexivity.
Qed.

Lemma timers_ticks_countdown n m sw swr d cd fin :
  0 < cd -> Z.of_nat n <= cd <= INT_MAX ->
  exists sw',
    timer_events (repeat Tick n) (m, sw, swr, d, cd, true, fin) =
    (m, sw', swr, d, cd - Z.of_nat n, negb (cd - Z.of_nat n =? 0),
     if cd - Z.of_nat n =? 0 then true else fin).
Proof.
  revert sw cd fin. induction n as [|n IH]; intros sw cd fin Hpos Hcd.
  - exists sw. cbn [repeat timer_events fold_left Z.of_nat].
    rewrite Z.sub_0_r. destruct (Z.eqb_spec cd 0); [lia|reflexivity].
  - cbn [repeat]. rewrite timer_events_cons.
    destruct (tick_countdown_running m sw swr d cd fin) as [sw1 ->]; [lia|].
    replace (cd - Z.of_nat (S n)) with (cd - 1 - Z.of_nat n) by lia.
    destruct (Z.eqb_spec (cd - 1) 0) as [E|E]; cbn [negb].
    + assert (n = 0%nat) by lia. subst n.
      cbn [repeat timer_events fold_left Z.of_nat]. rewrite Z.sub_0_r.
      destruct (Z.eqb_spec (cd - 1) 0); [|contradiction].
      eexists. reflexivity.
    + apply IH; lia.
Qed.

Lemma timers_ticks_stopwatch n m sw d cd cdr fin :
  INT_MIN <= sw -> sw + Z.of_nat n <= INT_MAX ->
  exists cd' cdr' fin',
    timer_events (repeat Tick n) (m, sw, true, d, cd, cdr, fin) =
    (m, sw + Z.of_nat n, true, d, cd', cdr', fin').
Proof.
  revert sw cd cdr fin. induction n as [|n IH]; intros sw cd cdr fin Hlo Hhi.
  - exists cd, cdr, fin. cbn [repeat timer_events fold_left Z.of_nat].
    rewrite Z.add_0_r. reflexivity.
  - cbn [repeat]. rewrite timer_events_cons.
    destruct (tick_stopwatch_running m sw d cd cdr fin)
      as (cd1 & cdr1 & fin1 & ->); [lia|].
    replace (sw + Z.of_nat (S n)) with (sw + 1 + Z.of_nat n) by lia.
    apply IH; unfold INT_MIN in *; lia.
Qed.

(** X8: a running countdown with [r] seconds left counts down one second
    per tick: after [n <= r] ticks [r - n] seconds are left; it is still
    running, with the finished flag as before, while [n < r], and it is
    stopped and finished when [n = r].  The mode is not changed. *)
Theorem countdown_runs_down s n :
  isCountdownRunning s = true ->
  0 < countdownSeconds s <= INT_MAX ->
  Z.of_nat n <= countdownSeconds s ->
  countdownSeconds (apply_events (repeat Tick n) s)
  = countdownSeconds s - Z.of_nat n /\
  currentMode (apply_events (repeat Tick n) s) = currentMode s /\
  (Z.of_nat n < countdownSeconds s ->
   isCountdownRunning (apply_events (repeat Tick n) s) = true /\
   countdownFinished (apply_events (repeat Tick n) s) = countdownFinished s) /\
  (Z.of_nat n = countdownSeconds s ->
   isCountdownRunning (apply_events (repeat Tick n) s) = false /\
   countdownFinished (apply_events (repeat Tick n) s) = true).
Proof.
  intros Hrun Hcd Hn.
  pose proof (timers_apply_events (repeat Tick n) s) as E.
  unfold timers at 2 in E. rewrite Hrun in E.
  destruct (timers_ticks_countdown n (currentMode s) (stopwatchSeconds s)
              (isStopwatchRunning s) (initialCountdownSetting s)
              (countdownSeconds s) (countdownFinished s)) as [sw' E'];
    [lia|lia|].
  rewrite E' in E.
  destruct (timers_fields_of _ _ E) as (Em & _ & _ & _ & Ec & Er & Ef).
  rewrite Em, Ec, Er, Ef.
  split; [reflexivity|]. split; [reflexivity|].
  split; intros H.
  - destruct (Z.eqb_spec (countdownSeconds s - Z.of_nat n) 0); [lia|].
    split; reflexivity.
  - destruct (Z.eqb_spec (countdownSeconds s - Z.of_nat n) 0); [|lia].
    split; reflexivity.
Qed.

Lemma countdown_runs_down_witness :
  isCountdownRunning (apply_event ShortPressB booted) = true /\
  0 < countdownSeconds (apply_event ShortPressB booted) <= INT_MAX /\
  Z.of_nat 10 <= countdownSeconds (apply_event ShortPressB booted) /\
  Z.of_nat 10 = countdownSeconds (apply_event ShortPressB booted) /\
  countdownSeconds (apply_events (repeat Tick 10) (apply_event ShortPressB booted))
  = countdownSeconds (apply_event ShortPressB booted) - Z.of_nat 10 /\
  isCountdownRunning
    (apply_events (repeat Tick 10) (apply_event ShortPressB booted)) = false /\
  countdownFinished
    (apply_events (repeat Tick 10) (apply_event ShortPressB booted)) = true.
Proof.
  assert (H1 : isCountdownRunning (apply_event ShortPressB booted) = true)
    by (vm_compute; reflexivity).
  assert (H2 : 0 < countdownSeconds (apply_event ShortPressB booted) <= INT_MAX)
    by (vm_compute; split; [reflexivity|discriminate]).
  assert (H3 : Z.of_nat 10 <= countdownSeconds (apply_event ShortPressB booted))
    by (vm_compute; discriminate).
  assert (H4 : Z.of_nat 10 = countdownSeconds (apply_event ShortPressB booted))
    by (vm_compute; reflexivity).
  split; [exact H1|]. split; [exact H2|]. split; [exact H3|]. split; [exact H4|].
  pose proof (countdown_runs_down (apply_event ShortPressB booted) 10 H1 H2 H3)
    as (K1 & _ & _ & K4).
  split; [exact K1|]. exact (K4 H4).
Defined.

(** X9: a running stopwatch gains exactly one second per tick, and keeps
    running in the same mode, as long as the count stays within [INT_MAX]. *)
Theorem stopwatch_counts s n :
  isStopwatchRunning s = true ->
  INT_MIN <= stopwatchSeconds s ->
  stopwatchSeconds s + Z.of_nat n <= INT_MAX ->
  stopwatchSeconds (apply_events (repeat Tick n) s)
  = stopwatchSeconds s + Z.of_nat n /\
  isStopwatchRunning (apply_events (repeat Tick n) s) = true /\
  currentMode (apply_events (repeat Tick n) s) = currentMode s.
Proof.
  intros Hrun Hlo Hhi.
  pose proof (timers_apply_events (repeat Tick n) s) as E.
  unfold timers at 2 in E. rewrite Hrun in E.
  destruct (timers_ticks_stopwatch n (currentMode s) (stopwatchSeconds s)
              (initialCountdownSetting s) (countdownSeconds s)
              (isCountdownRunning s) (countdownFinished s) Hlo Hhi)
    as (cd' & cdr' & fin' & E').
  rewrite E' in E.
  destruct (timers_fields_of _ _ E) as (Em & Es & Er & _).
  rewrite Em, Es, Er. repeat split.
Qed.

Lemma stopwatch_counts_witness :
  isStopwatchRunning (apply_event ShortPressA booted) = true /\
  INT_MIN <= stopwatchSeconds (apply_event ShortPressA booted) /\
  stopwatchSeconds (apply_event ShortPressA booted) + Z.of_nat 90 <= INT_MAX /\
  stopwatchSeconds (apply_events (repeat Tick 90) (apply_event ShortPressA booted))
  = stopwatchSeconds (apply_event ShortPressA booted) + Z.of_nat 90 /\
  isStopwatchRunning
    (apply_events (repeat Tick 90) (apply_event ShortPressA booted)) = true /\
  currentMode (apply_events (repeat Tick 90) (apply_event ShortPressA booted))
  = currentMode (apply_event ShortPressA booted).
Proof.
  assert (H1 : isStopwatchRunning (apply_event ShortPressA booted) = true)
    by (vm_compute; reflexivity).
  assert (H2 : INT_MIN <= stopwatchSeconds (apply_event ShortPressA booted))
    by (vm_compute; discriminate).
  assert (H3 : stopwatchSeconds (apply_event ShortPressA booted) + Z.of_nat 90
               <= INT_MAX) by (vm_compute; discriminate).
  split; [exact H1|]. split; [exact H2|]. split; [exact H3|].
  exact (stopwatch_counts (apply_event ShortPressA booted) 90 H1 H2 H3).
Defined.

(** X10: pausing and resuming gives back the timer variables.  In Stopwatch
    mode two short presses of A leave them as they were; in Countdown mode
    with the finished flag clear, so do two short presses of B, whether the
    countdown was running or paused. *)
Theorem pause_resume s :
  reachable s ->
  (currentMode s = STOPWATCH ->
   timers (apply_events [ShortPressA; ShortPressA] s) = timers s) /\
  (currentMode s = COUNTDOWN -> countdownFinished s = false ->
   timers (apply_events [ShortPressB; ShortPressB] s) = timers s).
Proof.
  intros Hr.
  destruct (reachable_fields_ok s Hr) as (_ & _ & Hs & _).
  destruct (reachable_timers_settled s Hr) as (_ & _ & Hm).
  rewrite !timers_apply_events. unfold timers.
  split.
  - intros ->. cbn. rewrite negb_involutive. reflexivity.
  - intros E F. rewrite E, F in *.
    assert (Hsw : isStopwatchRunning s = false)
      by (destruct (isStopwatchRunning s); [exfalso; now apply Hs|reflexivity]).
    assert (Hpos : 0 < countdownSeconds s)
      by (destruct (Hm eq_refl); [assumption|discriminate]).
    rewrite Hsw. cbn.
    destruct (isCountdownRunning s); cbn;
      destruct (Z.leb_spec (countdownSeconds s) 0); try lia; reflexivity.
Qed.

Lemma pause_resume_witness :
  (reachable (apply_event ShortPressA booted) /\
   currentMode (apply_event ShortPressA booted) = STOPWATCH /\
   timers (apply_events [ShortPressA; ShortPressA] (apply_event ShortPressA booted))
   = timers (apply_event ShortPressA booted)) /\
  (reachable (apply_event ShortPressB booted) /\
   currentMode (apply_event ShortPressB booted) = COUNTDOWN /\
   countdownFinished (apply_event ShortPressB booted) = false /\
   timers (apply_events [ShortPressB; ShortPressB] (apply_event ShortPressB booted))
   = timers (apply_event ShortPressB booted)).
Proof.
  assert (Ha : reachable (apply_event ShortPressA booted))
    by (apply reach_event, reach_boot).
  assert (A1 : currentMode (apply_event ShortPressA booted) = STOPWATCH)
    by (vm_compute; reflexivity).
  assert (Hr : reachable (apply_event ShortPressB booted))
    by (apply reach_event, reach_boot).
  assert (H1 : currentMode (apply_event ShortPressB booted) = COUNTDOWN)
    by (vm_compute; reflexivity).
  assert (H2 : countdownFinished (apply_event ShortPressB booted) = false)
    by (vm_compute; reflexivity).
  split.
  - split; [exact Ha|]. split; [exact A1|].
    exact (proj1 (pause_resume (apply_event ShortPressA booted) Ha) A1).
  - split; [exact Hr|]. split; [exact H1|]. split; [exact H2|].
    exact (proj2 (pause_resume (apply_event ShortPressB booted) Hr) H1 H2).
Defined.

(** ** What the screen shows *)

Lemma reachable_shown s : reachable s -> shown s.
Proof.
  induction 1 as [|s i _ IH|s e _ IH].
  - exact shown_booted.
  - apply shown_loop, IH.
  - apply shown_apply_event, IH.
Qed.

(** X11: at the end of every pass of [loop] from a reachable state, the text
    last printed on each row of the display is the text of the current mode
    and counters. *)
Theorem screen_up_to_date s i :
  reachable s ->
  last_written 0 (trace (step s i)) = Some (line0_text (step s i)) /\
  last_written 1 (trace (step s i)) = Some (line1_text (step s i)).
Proof.
  intros Hr.
  destruct (reachable_shown _ (reach_loop s i Hr)) as (_ & H0 & H1).
  assert (R : rendered (step s i))
    by (unfold step, loop; cbn zeta; apply updateLCD_rendered).
  destruct R as (_ & R0 & R1).
  rewrite <- R0, <- R1. split; assumption.
Qed.

Lemma screen_up_to_date_witness :
  reachable c5_state /\
  last_written 0 (trace (step c5_state (mkInput 5 HIGH HIGH)))
  = Some (line0_text (step c5_state (mkInput 5 HIGH HIGH))) /\
  last_written 1 (trace (step c5_state (mkInput 5 HIGH HIGH)))
  = Some (line1_text (step c5_state (mkInput 5 HIGH HIGH))).
Proof.
  assert (Hr : reachable c5_state).
  { unfold c5_state, apply_events. cbn [repeat fold_left].
    repeat apply reach_event. exact reach_boot. }
  split; [exact Hr|].
  exact (screen_up_to_date c5_state (mkInput 5 HIGH HIGH) Hr).
Defined.

Lemma trace_safePrintLine_miss row txt s :
  (if row =? 0 then lastLine0 s else lastLine1 s) <> txt ->
  trace (safePrintLine row txt s) =
  [LcdPrint txt; LcdSetCursor 0 row; LcdPrint "                ";
   LcdSetCursor 0 row] ++ trace s.
Proof.
  intros H. unfold safePrintLine.
  destruct (String.eqb_spec (if row =? 0 then lastLine0 s else lastLine1 s) txt)
    as [E|E]; [contradiction|].
  cbn [negb]. destruct (row =? 0); reflexivity.
Qed.

Lemma updateLCD_repaint_trace s :
  mode_code (currentMode s) <> lastShownMode s ->
  trace (updateLCD s) =
  (if time_up s then [DigitalWrite LED_PIN HIGH] else [])
  ++ repaint (line0_text s) (line1_text s) ++ trace s.
Proof.
  intros H. rewrite updateLCD_render. cbn zeta.
  assert (E : invalidate s =
              set_lastShownMode (mode_code (currentMode s))
                (set_lastLine1 "" (set_lastLine0 "" s))).
  { unfold invalidate.
    destruct (Z.eqb_spec (mode_code (currentMode s)) (lastShownMode s));
      [contradiction|reflexivity]. }
  rewrite E.
  set (s1 := set_lastShownMode _ _).
  assert (T0 : trace (safePrintLine 0 (line0_text s) s1) =
               [LcdPrint (line0_text s); LcdSetCursor 0 0;
                LcdPrint "                "; LcdSetCursor 0 0] ++ trace s).
  { rewrite trace_safePrintLine_miss; [reflexivity|].
    cbn. intros K. symmetry in K. exact (line0_text_nonempty s K). }
  assert (C1 : lastLine1 (safePrintLine 0 (line0_text s) s1) = "").
  { destruct (safePrintLine0_caches (line0_text s) s1 (line0_text_fits s))
      as (_ & -> & _). reflexivity. }
  assert (T1 : trace (safePrintLine 1 (line1_text s)
                        (safePrintLine 0 (line0_text s) s1)) =
               repaint (line0_text s) (line1_text s) ++ trace s).
  { rewrite trace_safePrintLine_miss.
    - rewrite T0. reflexivity.
    - cbn [Z.eqb]. rewrite C1. intros K. symmetry in K.
      exact (line1_text_nonempty s K). }
  destruct (time_up s); cbn [digitalWrite_LED emit trace set_trace set_ledPin];
    rewrite T1; reflexivity.
Qed.

(** X12: when the mode differs from the one last shown, [updateLCD] forgets
    the cache and repaints both rows, whatever the cache held: exactly the
    eight display calls of a repaint, and after them the LED write of the
    time-up branch if that is where the state is. *)
Theorem mode_change_repaints s :
  mode_code (currentMode s) <> lastShownMode s ->
  trace (updateLCD s) =
  (if time_up s then [DigitalWrite LED_PIN HIGH] else [])
  ++ repaint (line0_text s) (line1_text s) ++ trace s.
Proof. exact (updateLCD_repaint_trace s). Qed.

Lemma mode_change_repaints_witness :
  mode_code (currentMode (set_currentMode STOPWATCH booted))
  <> lastShownMode (set_currentMode STOPWATCH booted) /\
  trace (updateLCD (set_currentMode STOPWATCH booted)) =
  (if time_up (set_currentMode STOPWATCH booted)
   then [DigitalWrite LED_PIN HIGH] else [])
  ++ repaint (line0_text (set_currentMode STOPWATCH booted))
       (line1_text (set_currentMode STOPWATCH booted))
  ++ trace (set_currentMode STOPWATCH booted).
Proof.
  assert (H : mode_code (currentMode (set_currentMode STOPWATCH booted))
              <> lastShownMode (set_currentMode STOPWATCH booted))
    by (vm_compute; discriminate).
  split; [exact H|].
  exact (mode_change_repaints (set_currentMode STOPWATCH booted) H).
Defined.

(** X13: [setup] always paints the whole screen.  It sets the mode last
    shown to 255, which is no mode, so whatever the globals hold it
    initialises the display and the pins and then repaints both rows for the
    current mode. *)
Theorem setup_paints s :
  trace (setup s) =
  (if time_up s then [DigitalWrite LED_PIN HIGH] else [])
  ++ repaint (line0_text s) (line1_text s)
  ++ [PinMode LED_PIN OUTPUT; PinMode BUTTON_B_PIN INPUT_PULLUP;
      PinMode BUTTON_A_PIN INPUT_PULLUP; LcdBacklight; LcdInit]
  ++ trace s.
Proof.
  unfold setup. cbn zeta. rewrite updateLCD_repaint_trace.
  - reflexivity.
  - cbn [currentMode set_lastShownMode emit set_trace lastShownMode].
    destruct (currentMode s); discriminate.
Qed.

(** X14: [safePrintLine] prints a text of at most 16 characters once: a
    second call with the same text changes nothing.  A longer text does not
    fit the cache (which, being 17 bytes, never holds more than 16
    characters and keeps the first 16 of the text), so every call prints it
    again. *)
Theorem safePrintLine_twice row txt s :
  ((String.length txt <= 16)%nat ->
   safePrintLine row txt (safePrintLine row txt s) = safePrintLine row txt s) /\
  ((16 < String.length txt)%nat ->
   (String.length (lastLine0 s) <= 16)%nat ->
   (String.length (lastLine1 s) <= 16)%nat ->
   trace (safePrintLine row txt (safePrintLine row txt s)) =
   [LcdPrint txt; LcdSetCursor 0 row; LcdPrint "                ";
    LcdSetCursor 0 row] ++ trace (safePrintLine row txt s)).
Proof.
  split.
  - intros H.
    assert (C : (if row =? 0 then lastLine0 (safePrintLine row txt s)
                 else lastLine1 (safePrintLine row txt s)) = txt).
    { unfold safePrintLine.
      destruct (String.eqb_spec (if row =? 0 then lastLine0 s else lastLine1 s)
                  txt) as [E|E]; cbn [negb]; [exact E|].
      destruct (row =? 0); cbn; apply strncpy16_fits, H. }
    unfold safePrintLine at 1. rewrite C, String.eqb_refl. reflexivity.
  - intros H L0 L1. apply trace_safePrintLine_miss.
    assert (N : forall t, (String.length t <= 16)%nat -> t <> txt)
      by (intros t Lt E; rewrite E in Lt; lia).
    unfold safePrintLine.
    destruct (String.eqb_spec (if row =? 0 then lastLine0 s else lastLine1 s)
                txt) as [E|E]; cbn [negb].
    + destruct (row =? 0); apply N; assumption.
    + destruct (row =? 0); cbn; apply N, substring_0_length.
Qed.

Lemma safePrintLine_twice_witness :
  (String.length "   STOPWATCH" <= 16)%nat /\
  safePrintLine 0 "   STOPWATCH" (safePrintLine 0 "   STOPWATCH" booted)
  = safePrintLine 0 "   STOPWATCH" booted /\
  (16 < String.length "B : CD For : 300s")%nat /\
  (String.length (lastLine0 booted) <= 16)%nat /\
  (String.length (lastLine1 booted) <= 16)%nat /\
  trace (safePrintLine 1 "B : CD For : 300s"
           (safePrintLine 1 "B : CD For : 300s" booted)) =
  [LcdPrint "B : CD For : 300s"; LcdSetCursor 0 1; LcdPrint "                ";
   LcdSetCursor 0 1] ++ trace (safePrintLine 1 "B : CD For : 300s" booted).
Proof.
  assert (H1 : (String.length "   STOPWATCH" <= 16)%nat) by (cbn; lia).
  assert (H2 : (16 < String.length "B : CD For : 300s")%nat) by (cbn; lia).
  assert (H3 : (String.length (lastLine0 booted) <= 16)%nat)
    by (vm_compute; lia).
  assert (H4 : (String.length (lastLine1 booted) <= 16)%nat)
    by (vm_compute; lia).
  split; [exact H1|]. split.
  - exact (proj1 (safePrintLine_twice 0 "   STOPWATCH" booted) H1).
  - split; [exact H2|]. split; [exact H3|]. split; [exact H4|].
    exact (proj2 (safePrintLine_twice 1 "B : CD For : 300s" booted) H2 H3 H4).
Defined.

(** ** Frames of the timer blocks *)

Lemma frame_shortClickA {X} (f : State -> X) s :
  timer_blind f -> f (shortClickA s) = f s.
Proof.
  intros (Hd & Hm & _ & Hsr & _ & _ & Hcr & Hf).
  unfold shortClickA. rewrite (frame_updateLCD f) by exact Hd.
  destruct (negb _); rewrite ?Hf, ?Hcr, ?Hsr, ?Hm; reflexivity.
Qed.


Lemma frame_resetEverything {X} (f : State -> X) s :
  timer_blind f -> f (resetEverything s) = f (set_longAengaged true s).
Proof.
  intros (Hd & Hm & Hs & Hsr & _ & Hc & Hcr & Hf).
  unfold resetEverything. rewrite (frame_updateLCD f) by exact Hd.
  rewrite (frame_digitalWrite_LED f) by exact Hd.
  rewrite Hm, Hf, Hcr, Hsr, Hc, Hs. reflexivity.
Qed.

Lemma frame_increaseCountdownSetting {X} (f : State -> X) s :
  timer_blind f -> f (increaseCountdownSetting s) = f s.
Proof.
  intros (Hd & Hm & _ & _ & Hi & _).
  unfold increaseCountdownSetting. rewrite (frame_updateLCD f) by exact Hd.
  cbn zeta. rewrite Hm.
  destruct (_ >? COUNT_MAX); rewrite ?Hi; reflexivity.
Qed.

Lemma frame_tickSecond {X} (f : State -> X) s :
  timer_blind f -> f (tickSecond s) = f s.
Proof.
  intros Hb. pose proof Hb as (Hd & _ & Hs & _ & _ & Hc & Hcr & Hf).
  unfold tickSecond.
  set (s1 := if isStopwatchRunning s then _ else s).
  assert (E1 : f s1 = f s).
  { subst s1. destruct (isStopwatchRunning s); [|reflexivity]. cbn zeta.
    destruct (mode_eqb _ STOPWATCH);
      rewrite ?(frame_updateLCD f) by exact Hd; apply Hs. }
  rewrite <- E1. clearbody s1.
  destruct (isCountdownRunning s1); [|reflexivity].
  destruct (countdownSeconds s1 >? 0); [|reflexivity].
  cbn zeta.
  set (s2 := set_countdownSeconds _ s1).
  assert (E2 : f s2 = f s1) by apply Hc.
  rewrite <- E2. clearbody s2.
  set (s3 := if mode_eqb (currentMode s2) COUNTDOWN then _ else s2).
  assert (E3 : f s3 = f s2)
    by (subst s3; destruct (mode_eqb (currentMode s2) COUNTDOWN);
        [apply (frame_updateLCD f), Hd|reflexivity]).
  rewrite <- E3. clearbody s3.
  destruct (countdownSeconds s3 =? 0); [|reflexivity].
  rewrite (frame_updateLCD f) by exact Hd. rewrite Hf, Hcr. reflexivity.
Qed.

(** ** The buttons *)


Lemma stableB_timer_blind : timer_blind stableB.
Proof. repeat split. Qed.

Lemma longAengaged_timer_blind : timer_blind longAengaged.
Proof. repeat split. Qed.

Lemma lastHoldRepeatB_timer_blind : timer_blind lastHoldRepeatB.
Proof. repeat split. Qed.

Lemma lastTick_timer_blind : timer_blind lastTick.
Proof. repeat split. Qed.








Lemma u32_sub_diag now : u32 (now - now) = 0.
Proof. rewrite Z.sub_diag. reflexivity. Qed.

Lemma frame_tick {X} (f : State -> X) now s :
  timer_blind f -> (forall v s, f (set_lastTick v s) = f s) ->
  f (tick now s) = f s.
Proof.
  intros Hb Ht. unfold tick. destruct (_ >=? TICK_MS); [|reflexivity].
  cbn zeta. rewrite (frame_tickSecond f) by exact Hb. apply Ht.
Qed.

Lemma frame_ledBehavior {X} (f : State -> X) now s :
  display_blind f ->
  (forall v s, f (set_lastLedToggle v s) = f s) ->
  (forall v s, f (set_ledState v s) = f s) ->
  f (ledBehavior now s) = f s.
Proof.
  intros Hd Hl Hs. unfold ledBehavior, toggleLed.
  destruct (_ || _).
  - destruct (_ >=? LED_BLINK_MS); [|reflexivity]. cbn zeta.
    rewrite (frame_digitalWrite_LED f) by exact Hd. rewrite Hs. apply Hl.
  - destruct (countdownFinished s).
    + destruct (_ >=? 700); [|reflexivity]. cbn zeta.
      rewrite (frame_digitalWrite_LED f) by exact Hd. rewrite Hs. apply Hl.
    + cbn zeta. rewrite Hs. apply (frame_digitalWrite_LED f), Hd.
Qed.

Lemma frame_holdA {X} (f : State -> X) now s :
  timer_blind f -> (forall v s, f (set_longAengaged v s) = f s) ->
  f (holdA now s) = f s.
Proof.
  intros Hb Hl. unfold holdA. destruct (_ && _); [|reflexivity].
  rewrite (frame_resetEverything f) by exact Hb. apply Hl.
Qed.

Lemma frame_holdB {X} (f : State -> X) now s :
  timer_blind f ->
  (forall v s, f (set_longBengaged v s) = f s) ->
  (forall v s, f (set_lastHoldRepeatB v s) = f s) ->
  f (holdB now s) = f s.
Proof.
  intros Hb Hl Hr. unfold holdB. destruct (_ && _); [|reflexivity].
  rewrite Hl. destruct (_ >=? HOLD_REPEAT_MS); [|reflexivity].
  cbn zeta. rewrite Hr. apply (frame_increaseCountdownSetting f), Hb.
Qed.

Lemma stableB_debounceA now rawA s : stableB (debounceA now rawA s) = stableB s.
Proof.
  unfold debounceA.
  set (s1 := if negb (Bool.eqb rawA (lastRawA s)) then _ else s).
  assert (E1 : stableB s1 = stableB s)
    by (subst s1; destruct (negb (Bool.eqb rawA (lastRawA s))); reflexivity).
  rewrite <- E1. clearbody s1. cbn zeta.
  change (stableB (set_lastRawA rawA ?x)) with (stableB x).
  destruct (_ && _); [|reflexivity].
  destruct (Bool.eqb _ LOW); [reflexivity|].
  destruct (_ && _); [|reflexivity].
  rewrite (frame_shortClickA stableB) by exact stableB_timer_blind.
  reflexivity.
Qed.

Lemma stableA_pass m rawA rawB s :
  negb (Bool.eqb rawA (lastRawA s))
  || (u32 (u32 m - lastDebounceTimeA s) <=? DEBOUNCE_MS) = true ->
  stableA (loop m rawA rawB s) = stableA s.
Proof.
  intros H. unfold loop. cbn zeta.
  rewrite (frame_updateLCD stableA) by exact stableA_blind.
  rewrite (frame_ledBehavior stableA) by (solve [repeat split | reflexivity]).
  rewrite (frame_tick stableA) by (solve [repeat split | reflexivity]).
  rewrite (frame_holdB stableA) by (solve [repeat split | reflexivity]).
  rewrite (frame_holdA stableA) by (solve [repeat split | reflexivity]).
  rewrite stableA_debounceB.
  unfold debounceA.
  destruct (negb (Bool.eqb rawA (lastRawA s))); cbn zeta.
  - cbn [lastDebounceTimeA set_lastDebounceTimeA]. rewrite u32_sub_diag.
    reflexivity.
  - cbn [orb] in H. apply Z.leb_le in H.
    destruct (Z.gtb_spec (u32 (u32 m - lastDebounceTimeA s)) DEBOUNCE_MS);
      [lia|reflexivity].
Qed.

Lemma stableB_pass m rawA rawB s :
  negb (Bool.eqb rawB (lastRawB s))
  || (u32 (u32 m - lastDebounceTimeB s) <=? DEBOUNCE_MS) = true ->
  stableB (loop m rawA rawB s) = stableB s.
Proof.
  intros H. unfold loop. cbn zeta.
  rewrite (frame_updateLCD stableB) by exact stableB_blind.
  rewrite (frame_ledBehavior stableB) by (solve [repeat split | reflexivity]).
  rewrite (frame_tick stableB) by (solve [repeat split | reflexivity]).
  rewrite (frame_holdB stableB) by (solve [repeat split | reflexivity]).
  rewrite stableB_holdA.
  set (s0 := debounceA (u32 m) rawA s).
  assert (R : lastRawB s0 = lastRawB s /\
              lastDebounceTimeB s0 = lastDebounceTimeB s /\
              stableB s0 = stableB s).
  { subst s0. unfold debounceA.
    set (s1 := if negb (Bool.eqb rawA (lastRawA s)) then _ else s).
    assert (E1 : lastRawB s1 = lastRawB s /\
                 lastDebounceTimeB s1 = lastDebounceTimeB s /\
                 stableB s1 = stableB s)
      by (subst s1; destruct (negb (Bool.eqb rawA (lastRawA s)));
          repeat split).
    destruct E1 as (<- & <- & <-). clearbody s1. cbn zeta.
    change (lastRawB (set_lastRawA rawA ?x)) with (lastRawB x).
    change (lastDebounceTimeB (set_lastRawA rawA ?x)) with (lastDebounceTimeB x).
    change (stableB (set_lastRawA rawA ?x)) with (stableB x).
    destruct (_ && _); [|repeat split].
    destruct (Bool.eqb _ LOW); [repeat split|].
    destruct (_ && _); [|repeat split].
    rewrite (frame_shortClickA lastRawB), (frame_shortClickA lastDebounceTimeB),
      (frame_shortClickA stableB) by (repeat split).
    repeat split. }
  destruct R as (R1 & R2 & R3). rewrite <- R3.
  unfold debounceB. rewrite R1.
  destruct (negb (Bool.eqb rawB (lastRawB s))); cbn zeta.
  - cbn [lastDebounceTimeB set_lastDebounceTimeB]. rewrite u32_sub_diag.
    reflexivity.
  - rewrite R2. cbn [orb] in H. apply Z.leb_le in H.
    destruct (Z.gtb_spec (u32 (u32 m - lastDebounceTimeB s)) DEBOUNCE_MS);
      [lia|reflexivity].
Qed.

(** X16: while button A keeps bouncing (in every pass its level differs
    from the previous reading, or no more than the debounce window has gone
    by since its last change), the stable level of A does not change,
    however long the run. *)
Theorem debounce_stability_A inputs s :
  bouncingA inputs s = true -> stableA (run inputs s) = stableA s.
Proof.
  unfold run. revert s.
  induction inputs as [|i inputs IH]; intros s H; [reflexivity|].
  cbn [bouncingA] in H. apply andb_prop in H. destruct H as [H0 H1].
  cbn [fold_left]. rewrite (IH _ H1). unfold step. apply stableA_pass, H0.
Qed.

Lemma debounce_stability_A_witness :
  bouncingA (samples chatter released 40) booted = true /\
  stableA (run (samples chatter released 40) booted) = stableA booted.
Proof.
  assert (H : bouncingA (samples chatter released 40) booted = true)
    by (vm_compute; reflexivity).
  split; [exact H|].
  exact (debounce_stability_A (samples chatter released 40) booted H).
Defined.

(** X17: the same for button B. *)
Theorem debounce_stability_B inputs s :
  bouncingB inputs s = true -> stableB (run inputs s) = stableB s.
Proof.
  unfold run. revert s.
  induction inputs as [|i inputs IH]; intros s H; [reflexivity|].
  cbn [bouncingB] in H. apply andb_prop in H. destruct H as [H0 H1].
  cbn [fold_left]. rewrite (IH _ H1). unfold step. apply stableB_pass, H0.
Qed.

Lemma debounce_stability_B_witness :
  bouncingB (samples released chatter 40) booted = true /\
  stableB (run (samples released chatter 40) booted) = stableB booted.
Proof.
  assert (H : bouncingB (samples released chatter 40) booted = true)
    by (vm_compute; reflexivity).
  split; [exact H|].
  exact (debounce_stability_B (samples released chatter 40) booted H).
Defined.

(** X18: once the long press of a button is flagged, its debounce block no
    longer clicks: whatever level is read at whatever time, the timer
    variables stay as they are and nothing is sent to the display or the
    LED.  So the release that ends a long press is silent. *)
Theorem long_press_release_silent now raw s :
  (longAengaged s = true ->
   timers (debounceA now raw s) = timers s /\
   trace (debounceA now raw s) = trace s) /\
  (longBengaged s = true ->
   timers (debounceB now raw s) = timers s /\
   trace (debounceB now raw s) = trace s).
Proof.
  split; intros H.
  - unfold debounceA.
    set (s1 := if negb (Bool.eqb raw (lastRawA s)) then _ else s).
    assert (E1 : timers s1 = timers s /\ trace s1 = trace s /\
                 longAengaged s1 = true)
      by (subst s1; destruct (negb (Bool.eqb raw (lastRawA s)));
          repeat split; exact H).
    destruct E1 as (<- & <- & L). clearbody s1. cbn zeta.
    destruct (_ && _); [|split; reflexivity].
    destruct (Bool.eqb _ LOW); [split; reflexivity|].
    change (longAengaged (set_stableA raw s1)) with (longAengaged s1).
    rewrite L. split; reflexivity.
  - unfold debounceB.
    set (s1 := if negb (Bool.eqb raw (lastRawB s)) then _ else s).
    assert (E1 : timers s1 = timers s /\ trace s1 = trace s /\
                 longBengaged s1 = true)
      by (subst s1; destruct (negb (Bool.eqb raw (lastRawB s)));
          repeat split; exact H).
    destruct E1 as (<- & <- & L). clearbody s1. cbn zeta.
    destruct (_ && _); [|split; reflexivity].
    destruct (Bool.eqb _ LOW); [split; reflexivity|].
    change (longBengaged (set_stableB raw s1)) with (longBengaged s1).
    rewrite L. split; reflexivity.
Qed.

Lemma long_press_release_silent_witness :
  (longAengaged (resetEverything c4_stateA) = true /\
   timers (debounceA 2000 HIGH (resetEverything c4_stateA))
   = timers (resetEverything c4_stateA) /\
   trace (debounceA 2000 HIGH (resetEverything c4_stateA))
   = trace (resetEverything c4_stateA)) /\
  (longBengaged (holdB 870 c4_stateB) = true /\
   timers (debounceB 2000 HIGH (holdB 870 c4_stateB))
   = timers (holdB 870 c4_stateB) /\
   trace (debounceB 2000 HIGH (holdB 870 c4_stateB))
   = trace (holdB 870 c4_stateB)).
Proof.
  assert (H : longAengaged (resetEverything c4_stateA) = true)
    by (vm_compute; reflexivity).
  assert (K : longBengaged (holdB 870 c4_stateB) = true)
    by (vm_compute; reflexivity).
  split.
  - split; [exact H|].
    exact (proj1 (long_press_release_silent 2000 HIGH
                    (resetEverything c4_stateA)) H).
  - split; [exact K|].
    exact (proj2 (long_press_release_silent 2000 HIGH (holdB 870 c4_stateB)) K).
Defined.

(** X19: a long press of A resets once.  In the pass that finds A stable
    low for at least the long-press threshold with the flag clear, the
    reset block runs; in any later pass, at whatever time, the hold block
    leaves that state as it is. *)
Theorem reset_fires_once now1 now2 s :
  stableA s = LOW -> longAengaged s = false ->
  u32 (now1 - pressStartA s) >= LONGPRESS_MS ->
  holdA now1 s = resetEverything s /\
  holdA now2 (holdA now1 s) = holdA now1 s.
Proof.
  intros Hs Hl Hh.
  assert (E : holdA now1 s = resetEverything s).
  { unfold holdA. rewrite Hs, Hl.
    destruct (Z.geb_spec (u32 (now1 - pressStartA s)) LONGPRESS_MS);
      [reflexivity|lia]. }
  split; [exact E|]. rewrite E. unfold holdA at 1.
  rewrite (frame_resetEverything longAengaged) by exact longAengaged_timer_blind.
  cbn [longAengaged set_longAengaged negb]. rewrite andb_false_r. reflexivity.
Qed.

Lemma reset_fires_once_witness :
  stableA c4_stateA = LOW /\ longAengaged c4_stateA = false /\
  u32 (870 - pressStartA c4_stateA) >= LONGPRESS_MS /\
  holdA 870 c4_stateA = resetEverything c4_stateA /\
  holdA 5000 (holdA 870 c4_stateA) = holdA 870 c4_stateA.
Proof.
  assert (H1 : stableA c4_stateA = LOW) by (vm_compute; reflexivity).
  assert (H2 : longAengaged c4_stateA = false) by (vm_compute; reflexivity).
  assert (H3 : u32 (870 - pressStartA c4_stateA) >= LONGPRESS_MS)
    by (vm_compute; discriminate).
  split; [exact H1|]. split; [exact H2|]. split; [exact H3|].
  exact (reset_fires_once 870 5000 c4_stateA H1 H2 H3).
Defined.

(** X20: hold-repeats of B are at least [HOLD_REPEAT_MS] apart.  After a
    pass in which the hold block of B changed the duration, a pass less than
    [HOLD_REPEAT_MS] later changes neither the timer variables nor the
    display. *)
Theorem hold_repeat_spacing now1 now2 s :
  stableB s = LOW ->
  u32 (now1 - pressStartB s) >= LONGPRESS_MS ->
  u32 (now1 - lastHoldRepeatB s) >= HOLD_REPEAT_MS ->
  u32 (now2 - now1) < HOLD_REPEAT_MS ->
  timers (holdB now1 s) = timers (increaseCountdownSetting s) /\
  timers (holdB now2 (holdB now1 s)) = timers (holdB now1 s) /\
  trace (holdB now2 (holdB now1 s)) = trace (holdB now1 s).
Proof.
  intros Hs Hp Hr Hn.
  assert (E : holdB now1 s =
              set_longBengaged true
                (set_lastHoldRepeatB now1 (increaseCountdownSetting s))).
  { unfold holdB. rewrite Hs.
    destruct (Z.geb_spec (u32 (now1 - pressStartB s)) LONGPRESS_MS); [|lia].
    destruct (Z.geb_spec (u32 (now1 - lastHoldRepeatB s)) HOLD_REPEAT_MS);
      [reflexivity|lia]. }
  rewrite E. generalize (increaseCountdownSetting s). intros y.
  split; [reflexivity|].
  set (x := set_longBengaged true (set_lastHoldRepeatB now1 y)).
  unfold holdB.
  destruct (_ && _); [|split; reflexivity].
  change (lastHoldRepeatB x) with now1.
  destruct (Z.geb_spec (u32 (now2 - now1)) HOLD_REPEAT_MS); [lia|].
  split; reflexivity.
Qed.

Lemma hold_repeat_spacing_witness :
  stableB c4_stateB = LOW /\
  u32 (870 - pressStartB c4_stateB) >= LONGPRESS_MS /\
  u32 (870 - lastHoldRepeatB c4_stateB) >= HOLD_REPEAT_MS /\
  u32 (1219 - 870) < HOLD_REPEAT_MS /\
  timers (holdB 870 c4_stateB) = timers (increaseCountdownSetting c4_stateB) /\
  timers (holdB 1219 (holdB 870 c4_stateB)) = timers (holdB 870 c4_stateB) /\
  trace (holdB 1219 (holdB 870 c4_stateB)) = trace (holdB 870 c4_stateB).
Proof.
  assert (H1 : stableB c4_stateB = LOW) by (vm_compute; reflexivity).
  assert (H2 : u32 (870 - pressStartB c4_stateB) >= LONGPRESS_MS)
    by (vm_compute; discriminate).
  assert (H3 : u32 (870 - lastHoldRepeatB c4_stateB) >= HOLD_REPEAT_MS)
    by (vm_compute; discriminate).
  assert (H4 : u32 (1219 - 870) < HOLD_REPEAT_MS) by (vm_compute; reflexivity).
  split; [exact H1|]. split; [exact H2|]. split; [exact H3|]. split; [exact H4|].
  exact (hold_repeat_spacing 870 1219 c4_stateB H1 H2 H3 H4).
Defined.

(** X21: ticks are at least [TICK_MS] apart.  After a pass in which the tick
    block ran, the tick block of a pass less than [TICK_MS] later leaves the
    state as it is. *)
Theorem tick_spacing now1 now2 s :
  u32 (now1 - lastTick s) >= TICK_MS ->
  u32 (now2 - now1) < TICK_MS ->
  tick now1 s = tickSecond (set_lastTick now1 s) /\
  tick now2 (tick now1 s) = tick now1 s.
Proof.
  intros H1 H2.
  assert (E : tick now1 s = tickSecond (set_lastTick now1 s)).
  { unfold tick.
    destruct (Z.geb_spec (u32 (now1 - lastTick s)) TICK_MS);
      [reflexivity|lia]. }
  split; [exact E|]. rewrite E. unfold tick at 1.
  rewrite (frame_tickSecond lastTick) by exact lastTick_timer_blind.
  cbn [lastTick set_lastTick].
  destruct (Z.geb_spec (u32 (now2 - now1)) TICK_MS); [lia|reflexivity].
Qed.

Lemma tick_spacing_witness :
  u32 (1000 - lastTick booted) >= TICK_MS /\
  u32 (1999 - 1000) < TICK_MS /\
  tick 1000 booted = tickSecond (set_lastTick 1000 booted) /\
  tick 1999 (tick 1000 booted) = tick 1000 booted.
Proof.
  assert (H1 : u32 (1000 - lastTick booted) >= TICK_MS)
    by (vm_compute; discriminate).
  assert (H2 : u32 (1999 - 1000) < TICK_MS) by (vm_compute; reflexivity).
  split; [exact H1|]. split; [exact H2|].
  exact (tick_spacing 1000 1999 booted H1 H2).
Defined.


